(** * eh-pg: the PostgreSQL read/write repositories for Event Horizon

    A shallow embedding of the two repositories of the package
    ([Sqlx]: the repository written against [sqlx], and [GoPg]: the one
    written against the [go-pg] ORM), of the entity they are tested with
    ([mocks.Model]) and of the error envelope they return.

    The database client is a collaborator of the package, not a part of
    it: every repository operation is written against an interface of
    the client (a type class), threads the connection state explicitly
    and records every call it makes to the client.  Two readings of the
    interface are used: an arbitrary client (any instance of the class)
    and a reference client, a table of rows keyed by the primary key
    [id] that executes the statements the repository builds. *)

From stdpp Require Import base option list gmap strings fin_maps fin_map_dom pretty.

Open Scope string_scope.
Open Scope list_scope.

(** ** Values shared by both repositories *)

(** [uuid.UUID]: a 128 bit value; [uuid.Nil] is the zero value. *)
Abbreviation UUID := N (only parsing).

Definition uuid_Nil : UUID := 0%N.

(** A value bound to a statement or held by a column. *)
Inductive Value :=
| VNull
| VUUID (u : UUID)
| VInt (n : Z)
| VString (s : string)
| VTime (t : Z).

Global Instance Value_eq_dec : EqDecision Value.
Proof. solve_decision. Defined.

(** A row: column name to value ([map[string]interface{}] on the way in,
    the columns of a result row on the way out). *)
Abbreviation Row := (gmap string Value) (only parsing).

(** [context.Context], reduced to what the package reads from it: the
    namespace that [eh.NamespaceFromContext] extracts. *)
Record Context := { NamespaceFromContext : string }.

(** The error values of the package ([errors.New]) and of Event
    Horizon's repository contract. *)
Inductive Sentinel :=
| ErrCouldNotDialDB
| ErrCouldNotClearDB
| ErrNoDBClient
| ErrModelNotSet
| ErrEntityNotFound
| ErrCouldNotSaveEntity
| ErrMissingEntityID
| ErrCouldNotRemoveEntity.

Global Instance Sentinel_eq_dec : EqDecision Sentinel.
Proof. solve_decision. Defined.

(** An error that is not an envelope: one of the sentinels, or an error
    produced by the database client. *)
Inductive cause :=
| New (s : Sentinel)
| Driver (msg : string).

Global Instance cause_eq_dec : EqDecision cause.
Proof. solve_decision. Defined.

(** [eh.RepoError]: [nil] fields are [None]. *)
Record RepoError := {
  Err : option cause;
  BaseErr : option cause;
  Namespace : string
}.

Global Instance RepoError_eq_dec : EqDecision RepoError.
Proof. solve_decision. Defined.

(** A non-nil [error] as the callers of the package see it. *)
Inductive error_value :=
| Bare (c : cause)
| Envelope (e : RepoError).

Global Instance error_value_eq_dec : EqDecision error_value.
Proof. solve_decision. Defined.

(** Go's [error]: [None] is [nil]. *)
Abbreviation error := (option error_value) (only parsing).

(** The error a client hands back, as an [error] of the package. *)
Definition driver_error (e : option string) : option cause := Driver <$> e.

(** The envelope of kind [k] around [base], raised under [ns]. *)
Definition envelope (k : Sentinel) (base : option cause) (ns : string)
  : option error_value :=
  Some (Envelope {| Err := Some (New k); BaseErr := base; Namespace := ns |}).

(** [eh.Entity]. *)
Class Entity (E : Type) := { EntityID : E → UUID }.

(** What reflection over the [db] tags of a struct gives: the mapped
    fields of a value ([reflectx.Mapper.FieldMap]) and the scan of a
    result row into a destination of that type. *)
Class Reflect (E : Type) := {
  FieldMap : E → gmap string Value;
  scan : gmap string Value → E → E * option string
}.

(** ** State, calls and panics *)

(** A Go call returns, or panics. *)
Inductive outcome (A : Type) :=
| Return (a : A)
| Panic (msg : string).
Global Arguments Return {A} a.
Global Arguments Panic {A} msg.

Section monad.
Context {St Call : Type}.

(** The connection state and the calls made to the client so far. *)
Record World := { conn : St; calls : list Call }.

Definition M (A : Type) : Type := World → outcome A * World.

Definition ret {A} (a : A) : M A := λ w, (Return a, w).

Definition panic {A} (msg : string) : M A := λ w, (Panic msg, w).

Definition bind {A B} (c : M A) (k : A → M B) : M B :=
  λ w, match c w with
       | (Return a, w') => k a w'
       | (Panic msg, w') => (Panic msg, w')
       end.

(** One call to the client: the call is recorded, the client runs on
    the connection state. *)
Definition call {A} (c : Call) (f : St → St * A) : M A :=
  λ w, let '(s, a) := f (conn w) in
       (Return a, {| conn := s; calls := calls w ++ [c] |}).
End monad.
Global Arguments World : clear implicits.
Global Arguments M : clear implicits.

Global Instance M_ret {St Call} : MRet (M St Call) := λ A, ret.
Global Instance M_bind {St Call} : MBind (M St Call) := λ A B k c, bind c k.

(** ** The repository over sqlx *)

Module Sqlx.

(** The statements the repository sends, with the table name they are
    formatted with.  [query] is the text [fmt.Sprintf] produces. *)
Inductive Stmt :=
| SelectByID (table : string)
| SelectAll (table : string)
| Upsert (table : string) (mapFields : list string)
         (excludedFields : list (string * string))
| DeleteByID (table : string)
| DeleteAll (table : string).

(** [strings.Join] *)
Definition Join (l : list string) (sep : string) : string :=
  String.concat sep l.

Definition excluded (p : string * string) : string :=
  p.1 +:+ " = EXCLUDED." +:+ p.2.

Definition query (s : Stmt) : string :=
  match s with
  | SelectByID t => "SELECT * FROM " +:+ t +:+ " WHERE id=$1"
  | SelectAll t => "SELECT * FROM " +:+ t
  | Upsert t mapFields excludedFields =>
      let joinedFields := Join mapFields ", " in
      let joinedFieldsBindVar := ":" +:+ Join mapFields ", :" in
      let joinedFieldsExcluded := Join (excluded <$> excludedFields) ", " in
      "INSERT INTO " +:+ t +:+ " (" +:+ joinedFields +:+ ") VALUES ("
        +:+ joinedFieldsBindVar +:+ ") ON CONFLICT (id) DO UPDATE SET "
        +:+ joinedFieldsExcluded +:+ ";"
  | DeleteByID t => "DELETE FROM " +:+ t +:+ " WHERE id = $1"
  | DeleteAll t => "delete from " +:+ t
  end.

Definition table_of (s : Stmt) : string :=
  match s with
  | SelectByID t | SelectAll t | Upsert t _ _ | DeleteByID t | DeleteAll t => t
  end.

(** [sql.Result] *)
Record Result := { RowsAffected : Z * option string }.

(** The calls the repository makes on [*sqlx.DB], [*sqlx.Rows] and
    [*sqlx.Tx]. *)
Inductive Call :=
| GetContextCall (q : Stmt) (arg : UUID)
| QueryxContextCall (q : Stmt)
| NamedExecContextCall (q : Stmt) (arg : gmap string Value)
| ExecContextCall (q : Stmt) (arg : UUID)
| MustBeginTxCall
| MustExecCall (q : Stmt)
| CommitCall.

(** The statement of a call, when it carries one. *)
Definition stmt_of (c : Call) : option Stmt :=
  match c with
  | GetContextCall q _ | QueryxContextCall q | NamedExecContextCall q _
  | ExecContextCall q _ | MustExecCall q => Some q
  | MustBeginTxCall | CommitCall => None
  end.

(** The client: each method takes the connection state and gives the
    next one with what the Go method returns; a [nil] pointer or
    interface is [None].  The [context.Context] the Go methods take
    serves cancellation and is left out. *)
Class Client (St E : Type) := {
  GetContext : St → E → Stmt → UUID → St * (E * option string);
  QueryxContext : St → Stmt → St * (option (list (gmap string Value)) * option string);
  StructScan : gmap string Value → E → E * option string;
  NamedExecContext : St → Stmt → gmap string Value → St * (option Result * option string);
  ExecContext : St → Stmt → UUID → St * (option Result * option string);
  BeginTx : St → St * option string;
  TxExec : St → Stmt → St * option string;
  Commit : St → St * option string
}.

(** [*sqlx.DB], the handle the repository keeps. *)
Record DB := { driverName : string }.

(** [Config]; the connection settings play no part in the operations. *)
Record Config := {
  TableName : string;
  dbName : option (Context → string)
}.

Record Repo (E : Type) := {
  client : DB;
  config : Config;
  factoryFn : option (unit → E)
}.
Global Arguments client {E} r.
Global Arguments config {E} r.
Global Arguments factoryFn {E} r.

Definition nil_dereference : string :=
  "runtime error: invalid memory address or nil pointer dereference".

Section repo.
Context {St E : Type} `{!Entity E, !Reflect E, !Client St E}.

Local Abbreviation M := (M St Call).

Definition NewRepoWithClient (config' : Config) (client' : option DB)
  : option (Repo E) * error :=
  match client' with
  | None => (None, Some (Bare (New ErrNoDBClient)))
  | Some client' =>
      let r := {| client := client'; config := config'; factoryFn := None |} in
      let r := {| client := r.(client);
                  config := {| TableName := r.(config).(TableName);
                               dbName := Some (λ ctx,
                                 let ns := NamespaceFromContext ctx in
                                 r.(config).(TableName) +:+ "_" +:+ ns) |};
                  factoryFn := r.(factoryFn) |} in
      (Some r, None)
  end.

Definition Parent (r : Repo E) : option (Repo E) := None.

Definition SetEntityFactory (r : Repo E) (f : unit → E) : Repo E :=
  {| client := r.(client); config := r.(config); factoryFn := Some f |}.

Definition Find (r : Repo E) (ctx : Context) (id : UUID)
  : M (option E * error) :=
  let ns := NamespaceFromContext ctx in
  match r.(factoryFn) with
  | None =>
      ret (None, Some (Envelope {| Err := Some (New ErrModelNotSet);
                                   BaseErr := None;
                                   Namespace := ns |}))
  | Some factoryFn =>
      let entity := factoryFn () in
      let q := SelectByID r.(config).(TableName) in
      '(entity, err) ← call (GetContextCall q id)
                            (λ s, GetContext s entity q id);
      match err with
      | Some _ =>
          ret (None, Some (Envelope {| Err := Some (New ErrEntityNotFound);
                                       BaseErr := driver_error err;
                                       Namespace := NamespaceFromContext ctx |}))
      | None => ret (Some entity, None)
      end
  end.

(** The loop over [rows.Next()]: the first row that does not scan
    ends the whole call with the scan error; each scanned entity is
    appended and a new one is taken from the factory. *)
Fixpoint scanRows (factoryFn : unit → E) (rows : list (gmap string Value))
    (entity : E) (result : list E) : list E + string :=
  match rows with
  | [] => inl result
  | row :: rows =>
      match StructScan row entity with
      | (_, Some err) => inr err
      | (entity, None) =>
          scanRows factoryFn rows (factoryFn ()) (result ++ [entity])
      end
  end.

Definition FindAll (r : Repo E) (ctx : Context) : M (list E * error) :=
  let ns := NamespaceFromContext ctx in
  match r.(factoryFn) with
  | None =>
      ret ([], Some (Envelope {| Err := Some (New ErrModelNotSet);
                                 BaseErr := None;
                                 Namespace := ns |}))
  | Some factoryFn =>
      let result := [] in
      let entity := factoryFn () in
      let q := SelectAll r.(config).(TableName) in
      '(rows, err) ← call (QueryxContextCall q) (λ s, QueryxContext s q);
      match match rows with
            | Some rows => scanRows factoryFn rows entity result
            | None => inl result
            end with
      | inr err => ret ([], Some (Bare (Driver err)))
      | inl result =>
          match err with
          | Some _ =>
              ret ([], Some (Envelope {| Err := Some (New ErrEntityNotFound);
                                         BaseErr := driver_error err;
                                         Namespace := ns |}))
          | None => ret (result, None)
          end
      end
  end.

Definition FindWithFilter (r : Repo E) (ctx : Context) (expr : string)
  : M (list E * error) :=
  match r.(factoryFn) with
  | None =>
      ret ([], Some (Envelope {| Err := Some (New ErrModelNotSet);
                                 BaseErr := None;
                                 Namespace := NamespaceFromContext ctx |}))
  | Some _ => ret ([], None)
  end.

Definition FindWithFilterUsingIndex (r : Repo E) (ctx : Context)
    (filterQuery : string) : M (list E * error) :=
  match r.(factoryFn) with
  | None =>
      ret ([], Some (Envelope {| Err := Some (New ErrModelNotSet);
                                 BaseErr := None;
                                 Namespace := NamespaceFromContext ctx |}))
  | Some _ => ret ([], None)
  end.

(** The loop of [Save] over the mapped fields, in the order the map
    is ranged over. *)
Definition saveLoop (fields : list (string * Value))
  : list string * gmap string Value * list (string * string) :=
  foldl (λ '(mapFields, mapValues, excludedFields) '(field, v),
           (mapFields ++ [field],
            <[field := v]> mapValues,
            excludedFields ++ [(field, field)]))
        ([], ∅, []) fields.

Definition Save (r : Repo E) (ctx : Context) (entity : E) : M error :=
  if decide (EntityID entity = uuid_Nil) then
    ret (Some (Envelope {| Err := Some (New ErrCouldNotSaveEntity);
                           BaseErr := Some (New ErrMissingEntityID);
                           Namespace := NamespaceFromContext ctx |}))
  else
    let fields := FieldMap entity in
    let '(mapFields, mapValues, excludedFields) :=
      saveLoop (map_to_list fields) in
    let q := Upsert r.(config).(TableName) mapFields excludedFields in
    '(w, err) ← call (NamedExecContextCall q mapValues)
                     (λ s, NamedExecContext s q mapValues);
    match err with
    | Some _ =>
        ret (Some (Envelope {| Err := Some (New ErrCouldNotSaveEntity);
                               BaseErr := driver_error err;
                               Namespace := NamespaceFromContext ctx |}))
    | None =>
        match w with
        | None => panic nil_dereference
        | Some w =>
            let '(affected, err) := RowsAffected w in
            if bool_decide (err ≠ None) || bool_decide (affected ≠ 1%Z) then
              ret (Some (Envelope {| Err := Some (New ErrCouldNotSaveEntity);
                                     BaseErr := driver_error err;
                                     Namespace := NamespaceFromContext ctx |}))
            else ret None
        end
    end.

Definition Remove (r : Repo E) (ctx : Context) (id : UUID) : M error :=
  let q := DeleteByID r.(config).(TableName) in
  '(w, err) ← call (ExecContextCall q id) (λ s, ExecContext s q id);
  match err with
  | Some _ =>
      ret (Some (Envelope {| Err := Some (New ErrCouldNotRemoveEntity);
                             BaseErr := driver_error err;
                             Namespace := NamespaceFromContext ctx |}))
  | None =>
      match w with
      | None => panic nil_dereference
      | Some w =>
          let '(affected, err) := RowsAffected w in
          if bool_decide (affected ≠ 1%Z) then
            ret (Some (Envelope {| Err := Some (New ErrEntityNotFound);
                                   BaseErr := driver_error err;
                                   Namespace := NamespaceFromContext ctx |}))
          else ret None
      end
  end.

Definition Clear (r : Repo E) (ctx : Context) : M error :=
  err ← call MustBeginTxCall BeginTx;
  match err with
  | Some msg => panic msg
  | None =>
      let q := DeleteAll r.(config).(TableName) in
      err ← call (MustExecCall q) (λ s, TxExec s q);
      match err with
      | Some msg => panic msg
      | None =>
          err ← call CommitCall Commit;
          match err with
          | Some _ =>
              ret (Some (Envelope {| Err := Some (New ErrCouldNotClearDB);
                                     BaseErr := driver_error err;
                                     Namespace := NamespaceFromContext ctx |}))
          | None => ret None
          end
      end
  end.

End repo.
End Sqlx.

(** ** The entity of the package *)

Module mocks.

(** [mocks.Model]; a [time.Time] is the instant it denotes. *)
Record Model := {
  ID : UUID;
  Version : Z;
  Content : string;
  CreatedAt : Z
}.

Global Instance Model_eq_dec : EqDecision Model.
Proof. solve_decision. Defined.

Global Instance Model_Entity : Entity Model := {| EntityID m := m.(ID) |}.

(** [&mocks.Model{}] *)
Definition zero : Model :=
  {| ID := 0; Version := 0; Content := ""; CreatedAt := 0 |}.

(** The [db] tags of the struct. *)
Definition columns : list string := ["id"; "version"; "content"; "created_at"].

Definition Model_FieldMap (m : Model) : gmap string Value :=
  <["id" := VUUID m.(ID)]>
    (<["version" := VInt m.(Version)]>
       (<["content" := VString m.(Content)]>
          (<["created_at" := VTime m.(CreatedAt)]> ∅))).

(** Scanning one column into a field: a column the row does not have
    leaves the field as it is, a value of another type (or NULL) does
    not convert. *)
Definition scan_uuid (v : option Value) (old : UUID) : option UUID :=
  match v with None => Some old | Some (VUUID u) => Some u | Some _ => None end.
Definition scan_int (v : option Value) (old : Z) : option Z :=
  match v with None => Some old | Some (VInt n) => Some n | Some _ => None end.
Definition scan_string (v : option Value) (old : string) : option string :=
  match v with None => Some old | Some (VString s) => Some s | Some _ => None end.
Definition scan_time (v : option Value) (old : Z) : option Z :=
  match v with None => Some old | Some (VTime t) => Some t | Some _ => None end.

(** Scanning a row into a [*Model]: every column of the row needs a
    field tagged with its name. *)
Definition Model_scan (row : gmap string Value) (dest : Model)
  : Model * option string :=
  if bool_decide (dom row ⊆ list_to_set columns) then
    match scan_uuid (row !! "id") dest.(ID),
          scan_int (row !! "version") dest.(Version),
          scan_string (row !! "content") dest.(Content),
          scan_time (row !! "created_at") dest.(CreatedAt) with
    | Some i, Some v, Some c, Some t =>
        ({| ID := i; Version := v; Content := c; CreatedAt := t |}, None)
    | _, _, _, _ => (dest, Some "sql: Scan error: unsupported Scan")
    end
  else (dest, Some "missing destination name").

Global Instance Model_Reflect : Reflect Model :=
  {| FieldMap := Model_FieldMap; scan := Model_scan |}.

End mocks.

(** What the repositories rely on in an entity type and its table: the
    row made of the mapped fields of a value scans back to that value,
    whatever the destination held, and the column [id] holds the
    identifier. *)
Class ReflectLaws (E : Type) `{!Entity E, !Reflect E} : Prop := {
  scan_FieldMap : ∀ (e dest : E), scan (FieldMap e) dest = (e, None);
  FieldMap_id : ∀ e : E, FieldMap e !! "id" = Some (VUUID (EntityID e))
}.

(** ** The reference client of the sqlx repository *)

Module SqlxRef.
Import Sqlx.

(** The database: relation name to rows, a relation holding at most
    one row for each value of its primary key [id]. *)
Abbreviation Store := (gmap string (gmap N (gmap string Value))) (only parsing).

Definition no_rows : string := "sql: no rows in result set".
Definition undefined_table (t : string) : string :=
  "pq: relation " +:+ t +:+ " does not exist".
Definition not_this_statement : string := "pq: syntax error".

Definition done (n : Z) : option Result * option string :=
  (Some {| RowsAffected := (n, None) |}, None).

Section client.
Context {E : Type} `{!Reflect E}.

Definition ref_GetContext (st : Store) (dest : E) (q : Stmt) (id : UUID)
  : Store * (E * option string) :=
  match q with
  | SelectByID t =>
      match st !! t with
      | None => (st, (dest, Some (undefined_table t)))
      | Some tb =>
          match tb !! id with
          | None => (st, (dest, Some no_rows))
          | Some row => (st, scan row dest)
          end
      end
  | _ => (st, (dest, Some not_this_statement))
  end.

Definition ref_QueryxContext (st : Store) (q : Stmt)
  : Store * (option (list (gmap string Value)) * option string) :=
  match q with
  | SelectAll t =>
      match st !! t with
      | None => (st, (None, Some (undefined_table t)))
      | Some tb => (st, (Some (map_to_list tb).*2, None))
      end
  | _ => (st, (None, Some not_this_statement))
  end.

(** The row proposed for insertion: each listed column bound to the
    argument of its name. *)
Definition proposed (mapFields : list string) (arg : gmap string Value)
  : option (gmap string Value) :=
  list_to_map <$> mapM (λ f, (f,.) <$> arg !! f) mapFields.

(** [ON CONFLICT (id) DO UPDATE SET target = EXCLUDED.source, ...]
    applied to the row already stored. *)
Definition do_update (excludedFields : list (string * string))
    (new old : gmap string Value) : gmap string Value :=
  foldl (λ row '(target, source),
           <[target := default VNull (new !! source)]> row)
        old excludedFields.

Definition ref_NamedExecContext (st : Store) (q : Stmt)
    (arg : gmap string Value) : Store * (option Result * option string) :=
  match q with
  | Upsert t mapFields excludedFields =>
      match st !! t with
      | None => (st, (None, Some (undefined_table t)))
      | Some tb =>
          match proposed mapFields arg with
          | None => (st, (None, Some "could not find name in arguments"))
          | Some new =>
              match new !! "id" with
              | Some (VUUID k) =>
                  let row := match tb !! k with
                             | None => new
                             | Some old => do_update excludedFields new old
                             end in
                  (<[t := <[k := row]> tb]> st, done 1)
              | _ => (st, (None, Some "pq: null value in column id"))
              end
          end
      end
  | _ => (st, (None, Some not_this_statement))
  end.

Definition ref_ExecContext (st : Store) (q : Stmt) (id : UUID)
  : Store * (option Result * option string) :=
  match q with
  | DeleteByID t =>
      match st !! t with
      | None => (st, (None, Some (undefined_table t)))
      | Some tb =>
          match tb !! id with
          | None => (st, done 0)
          | Some _ => (<[t := delete id tb]> st, done 1)
          end
      end
  | _ => (st, (None, Some not_this_statement))
  end.

Definition ref_TxExec (st : Store) (q : Stmt) : Store * option string :=
  match q with
  | DeleteAll t =>
      match st !! t with
      | None => (st, Some (undefined_table t))
      | Some _ => (<[t := ∅]> st, None)
      end
  | _ => (st, Some not_this_statement)
  end.

Global Instance ref_Client : Client Store E := {|
  GetContext := ref_GetContext;
  QueryxContext := ref_QueryxContext;
  StructScan := scan;
  NamedExecContext := ref_NamedExecContext;
  ExecContext := ref_ExecContext;
  BeginTx st := (st, None);
  TxExec := ref_TxExec;
  Commit st := (st, None)
|}.
End client.
End SqlxRef.

(** ** The repository over go-pg *)

Module GoPg.

(** [orm.Result] *)
Record Result := { RowsAffected : Z }.

(** [X], the struct the callback of [FindAll] receives: it embeds a
    model with the fields of [mocks.Model]. *)
Record X := { X_Model : mocks.Model }.

Global Instance X_Entity : Entity X :=
  {| EntityID c := c.(X_Model).(mocks.ID) |}.

(** An [eh.Entity] as the repository returns it: the value the factory
    made, filled by the client, or a value the callback was given. *)
Inductive entity (E : Type) :=
| Made (e : E)
| Given (x : X).
Global Arguments Made {E} e.
Global Arguments Given {E} x.

(** The queries the repository runs; the model names the table. *)
Inductive Call (E : Type) :=
| SelectCall (model : E) (id : UUID)
| ForEachCall (model : E)
| UpdateCall (model : E) (id : UUID)
| InsertCall (model : E)
| DeleteCall (model : E) (id : UUID)
| DeleteWherePKCall (model : E).
Global Arguments SelectCall {E} model id.
Global Arguments ForEachCall {E} model.
Global Arguments UpdateCall {E} model id.
Global Arguments InsertCall {E} model.
Global Arguments DeleteCall {E} model id.
Global Arguments DeleteWherePKCall {E} model.

(** The client: [Model(model).Where("id = ?", id)] followed by
    [Select], [Update] or [Delete]; [Model(model)] followed by
    [Insert], [WherePK().Delete] or [ForEach], which gives the values
    it hands to the callback, in order, and the error it ends with. *)
Class Client (St E : Type) := {
  Select : St → E → UUID → St * (E * option string);
  ForEach : St → E → St * (list X * option string);
  Update : St → E → UUID → St * (option Result * option string);
  Insert : St → E → St * (option Result * option string);
  Delete : St → E → UUID → St * (option Result * option string);
  DeleteWherePK : St → E → St * (option Result * option string)
}.

(** [*pg.DB] *)
Record DB := { Addr : string }.

Record Config := {
  cfg_Addr : string;
  cfg_Database : string;
  cfg_User : string;
  cfg_Password : string
}.

Record Repo (E : Type) := {
  client : DB;
  config : Config;
  factoryFn : option (unit → E)
}.
Global Arguments client {E} r.
Global Arguments config {E} r.
Global Arguments factoryFn {E} r.

Section repo.
Context {St E : Type} `{!Entity E, !Client St E}.

Local Abbreviation M := (M St (Call E)).

Definition NewRepoWithClient (config' : Config) (client' : option DB)
  : option (Repo E) * error :=
  match client' with
  | None => (None, Some (Bare (New ErrNoDBClient)))
  | Some client' =>
      let r := {| client := client'; config := config'; factoryFn := None |} in
      (Some r, None)
  end.

Definition Parent (r : Repo E) : option (Repo E) := None.

Definition SetEntityFactory (r : Repo E) (f : unit → E) : Repo E :=
  {| client := r.(client); config := r.(config); factoryFn := Some f |}.

Definition Find (r : Repo E) (ctx : Context) (id : UUID)
  : M (option (entity E) * error) :=
  let ns := NamespaceFromContext ctx in
  match r.(factoryFn) with
  | None =>
      ret (None, Some (Envelope {| Err := Some (New ErrModelNotSet);
                                   BaseErr := None;
                                   Namespace := ns |}))
  | Some factoryFn =>
      let entity := factoryFn () in
      '(entity, err) ← call (SelectCall entity id)
                            (λ s, Select s entity id);
      match err with
      | Some _ =>
          ret (None, Some (Envelope {| Err := Some (New ErrEntityNotFound);
                                       BaseErr := driver_error err;
                                       Namespace := NamespaceFromContext ctx |}))
      | None => ret (Some (Made entity), None)
      end
  end.

(** The callback given to [ForEach], on the slice it appends to. *)
Definition callback (result : list (entity E)) (e : X)
  : list (entity E) * option string :=
  (result ++ [Given e], None).

(** [ForEach] calling back for each value, until the callback
    returns an error. *)
Fixpoint forEach (xs : list X) (result : list (entity E))
  : list (entity E) * option string :=
  match xs with
  | [] => (result, None)
  | e :: xs =>
      match callback result e with
      | (result, None) => forEach xs result
      | (result, Some err) => (result, Some err)
      end
  end.

Definition FindAll (r : Repo E) (ctx : Context)
  : M (list (entity E) * error) :=
  let ns := NamespaceFromContext ctx in
  match r.(factoryFn) with
  | None =>
      ret ([], Some (Envelope {| Err := Some (New ErrModelNotSet);
                                 BaseErr := None;
                                 Namespace := ns |}))
  | Some factoryFn =>
      let result := [] in
      let entity := factoryFn () in
      '(xs, err) ← call (ForEachCall entity) (λ s, ForEach s entity);
      let '(result, cberr) := forEach xs result in
      let err := match cberr with Some _ => cberr | None => err end in
      match err with
      | Some _ =>
          ret ([], Some (Envelope {| Err := Some (New ErrEntityNotFound);
                                     BaseErr := driver_error err;
                                     Namespace := ns |}))
      | None => ret (result, None)
      end
  end.

Definition FindWithFilter (r : Repo E) (ctx : Context) (expr : string)
  : M (list (entity E) * error) :=
  match r.(factoryFn) with
  | None =>
      ret ([], Some (Envelope {| Err := Some (New ErrModelNotSet);
                                 BaseErr := None;
                                 Namespace := NamespaceFromContext ctx |}))
  | Some _ => ret ([], None)
  end.

Definition FindWithFilterUsingIndex (r : Repo E) (ctx : Context)
    (filterQuery : string) : M (list (entity E) * error) :=
  match r.(factoryFn) with
  | None =>
      ret ([], Some (Envelope {| Err := Some (New ErrModelNotSet);
                                 BaseErr := None;
                                 Namespace := NamespaceFromContext ctx |}))
  | Some _ => ret ([], None)
  end.

Definition Save (r : Repo E) (ctx : Context) (entity : E) : M error :=
  if decide (EntityID entity = uuid_Nil) then
    ret (Some (Envelope {| Err := Some (New ErrCouldNotSaveEntity);
                           BaseErr := Some (New ErrMissingEntityID);
                           Namespace := NamespaceFromContext ctx |}))
  else
    match r.(factoryFn) with
    | None => panic Sqlx.nil_dereference
    | Some factoryFn =>
        let fromDB := factoryFn () in
        '(fromDB, _) ← call (SelectCall fromDB (EntityID entity))
                            (λ s, Select s fromDB (EntityID entity));
        if decide (EntityID fromDB = EntityID entity) then
          '(result, err) ← call (UpdateCall entity (EntityID entity))
                                (λ s, Update s entity (EntityID entity));
          match err with
          | Some _ =>
              ret (Some (Envelope {| Err := Some (New ErrCouldNotSaveEntity);
                                     BaseErr := driver_error err;
                                     Namespace := NamespaceFromContext ctx |}))
          | None =>
              match result with
              | Some result =>
                  if bool_decide (RowsAffected result ≠ 1%Z) then
                    ret (Some (Envelope {| Err := Some (New ErrCouldNotSaveEntity);
                                           BaseErr := driver_error err;
                                           Namespace := NamespaceFromContext ctx |}))
                  else ret None
              | None => ret None
              end
          end
        else
          '(_, err) ← call (InsertCall entity) (λ s, Insert s entity);
          match err with
          | Some _ =>
              ret (Some (Envelope {| Err := Some (New ErrCouldNotSaveEntity);
                                     BaseErr := driver_error err;
                                     Namespace := NamespaceFromContext ctx |}))
          | None => ret None
          end
    end.

Definition Remove (r : Repo E) (ctx : Context) (id : UUID) : M error :=
  match r.(factoryFn) with
  | None =>
      ret (Some (Envelope {| Err := Some (New ErrModelNotSet);
                             BaseErr := None;
                             Namespace := NamespaceFromContext ctx |}))
  | Some factoryFn =>
      let entity := factoryFn () in
      '(w, err) ← call (DeleteCall entity id) (λ s, Delete s entity id);
      match err with
      | Some _ =>
          ret (Some (Envelope {| Err := Some (New ErrCouldNotRemoveEntity);
                                 BaseErr := driver_error err;
                                 Namespace := NamespaceFromContext ctx |}))
      | None =>
          match w with
          | Some w =>
              if bool_decide (RowsAffected w ≠ 1%Z) then
                ret (Some (Envelope {| Err := Some (New ErrEntityNotFound);
                                       BaseErr := driver_error err;
                                       Namespace := NamespaceFromContext ctx |}))
              else ret None
          | None => ret None
          end
      end
  end.

Definition Clear (r : Repo E) (ctx : Context) : M error :=
  match r.(factoryFn) with
  | None => panic Sqlx.nil_dereference
  | Some factoryFn =>
      let entity := factoryFn () in
      '(_, err) ← call (DeleteWherePKCall entity)
                       (λ s, DeleteWherePK s entity);
      match err with
      | Some _ =>
          ret (Some (Envelope {| Err := Some (New ErrCouldNotClearDB);
                                 BaseErr := driver_error err;
                                 Namespace := NamespaceFromContext ctx |}))
      | None => ret None
      end
  end.

End repo.
End GoPg.

(** ** The reference client of the go-pg repository *)

Module GoPgRef.
Import GoPg.

(** The relation of the model: rows by primary key, and whether a
    trigger of the relation skips every inserted row, in which case
    the insert succeeds and reports no row. *)
Record Store := {
  rows : gmap N (gmap string Value);
  skip_insert : bool
}.

Definition no_rows : string := "pg: no rows in result set".

Definition done (n : Z) : option Result * option string :=
  (Some {| RowsAffected := n |}, None).

Definition with_rows (st : Store) (tb : gmap N (gmap string Value)) : Store :=
  {| rows := tb; skip_insert := st.(skip_insert) |}.

(** The rows scanned into values of [X], up to the first that does not
    scan. *)
Fixpoint scanX (l : list (gmap string Value)) : list X * option string :=
  match l with
  | [] => ([], None)
  | row :: l =>
      match mocks.Model_scan row mocks.zero with
      | (m, None) => let '(xs, err) := scanX l in ({| X_Model := m |} :: xs, err)
      | (_, Some err) => ([], Some err)
      end
  end.

Section client.
Context {E : Type} `{!Reflect E}.

Definition ref_Select (st : Store) (model : E) (id : UUID)
  : Store * (E * option string) :=
  match st.(rows) !! id with
  | None => (st, (model, Some no_rows))
  | Some row => (st, scan row model)
  end.

Definition ref_ForEach (st : Store) (model : E)
  : Store * (list X * option string) :=
  (st, scanX (map_to_list st.(rows)).*2).

Definition ref_Update (st : Store) (model : E) (id : UUID)
  : Store * (option Result * option string) :=
  match st.(rows) !! id with
  | None => (st, done 0)
  | Some old => (with_rows st (<[id := FieldMap model ∪ old]> st.(rows)), done 1)
  end.

Definition ref_Insert (st : Store) (model : E)
  : Store * (option Result * option string) :=
  match FieldMap model !! "id" with
  | Some (VUUID k) =>
      match st.(rows) !! k with
      | Some _ => (st, (None, Some "ERROR #23505 duplicate key value"))
      | None =>
          if st.(skip_insert) then (st, done 0)
          else (with_rows st (<[k := FieldMap model]> st.(rows)), done 1)
      end
  | _ => (st, (None, Some "ERROR #23502 null value in column id"))
  end.

Definition ref_Delete (st : Store) (model : E) (id : UUID)
  : Store * (option Result * option string) :=
  match st.(rows) !! id with
  | None => (st, done 0)
  | Some _ => (with_rows st (delete id st.(rows)), done 1)
  end.

(** [WherePK] compares the primary key of the relation with the value
    of the model's field.  go-pg writes the zero value of a field as
    NULL, and [id = NULL] holds of no row: a model whose identifier is
    the zero UUID deletes nothing. *)
Definition ref_DeleteWherePK (st : Store) (model : E)
  : Store * (option Result * option string) :=
  match FieldMap model !! "id" with
  | Some (VUUID k) =>
      if decide (k = uuid_Nil) then (st, done 0) else ref_Delete st model k
  | _ => (st, done 0)
  end.

Global Instance ref_Client : Client Store E := {|
  Select := ref_Select;
  ForEach := ref_ForEach;
  Update := ref_Update;
  Insert := ref_Insert;
  Delete := ref_Delete;
  DeleteWherePK := ref_DeleteWherePK
|}.
End client.
End GoPgRef.

(** ** The operations of a repository, as one type *)

Module Ops.
Import Sqlx.

Inductive Op (E : Type) :=
| OpFind (id : UUID)
| OpFindAll
| OpFindWithFilter (expr : string)
| OpFindWithFilterUsingIndex (filterQuery : string)
| OpSave (entity : E)
| OpRemove (id : UUID)
| OpClear.
Global Arguments OpFind {E} id.
Global Arguments OpFindAll {E}.
Global Arguments OpFindWithFilter {E} expr.
Global Arguments OpFindWithFilterUsingIndex {E} filterQuery.
Global Arguments OpSave {E} entity.
Global Arguments OpRemove {E} id.
Global Arguments OpClear {E}.

(** What an operation returns. *)
Inductive Reply (E : Type) :=
| One (entity : option E) (err : error)
| Many (result : list E) (err : error)
| Only (err : error).
Global Arguments One {E} entity err.
Global Arguments Many {E} result err.
Global Arguments Only {E} err.

(** An error with the namespace of its envelope replaced. *)
Definition in_namespace (ns : string) (err : error) : error :=
  match err with
  | Some (Envelope e) =>
      Some (Envelope {| Err := e.(Err); BaseErr := e.(BaseErr); Namespace := ns |})
  | _ => err
  end.

Definition reply_in_namespace {E} (ns : string) (x : outcome (Reply E))
  : outcome (Reply E) :=
  match x with
  | Return (One entity err) => Return (One entity (in_namespace ns err))
  | Return (Many result err) => Return (Many result (in_namespace ns err))
  | Return (Only err) => Return (Only (in_namespace ns err))
  | Panic msg => Panic msg
  end.

(** The error of a reply. *)
Definition reply_err {E} (x : Reply E) : option error_value :=
  match x with One _ err | Many _ err | Only err => err end.

(** A call that carries a statement carries one on the table [t]. *)
Definition on_table (t : string) (c : Call) : Prop :=
  ∀ q, stmt_of c = Some q → table_of q = t.

Section run.
Context {St E : Type} `{!Entity E, !Reflect E, !Client St E}.

Definition run (r : Repo E) (ctx : Context) (op : Op E)
  : M St Call (Reply E) :=
  match op with
  | OpFind id => x ← Find r ctx id; mret (One x.1 x.2)
  | OpFindAll => x ← FindAll r ctx; mret (Many x.1 x.2)
  | OpFindWithFilter expr =>
      x ← FindWithFilter r ctx expr; mret (Many x.1 x.2)
  | OpFindWithFilterUsingIndex q =>
      x ← FindWithFilterUsingIndex r ctx q; mret (Many x.1 x.2)
  | OpSave entity => err ← Save r ctx entity; mret (Only err)
  | OpRemove id => err ← Remove r ctx id; mret (Only err)
  | OpClear => err ← Clear r ctx; mret (Only err)
  end.

(** The operations of a list, one after the other, each under its
    own context. *)
Fixpoint run_all (r : Repo E) (ops : list (Context * Op E))
    (w : World St Call) : World St Call :=
  match ops with
  | [] => w
  | (ctx, op) :: ops => run_all r ops (run r ctx op w).2
  end.
End run.
End Ops.

(** ** Tables the entity fits *)

(** The relation [t] holds no column that the entity does not map. *)
Definition schema_fits {E : Type} `{!Reflect E}
    (st : gmap string (gmap N (gmap string Value))) (t : string) (e : E) : Prop :=
  ∀ tb, st !! t = Some tb →
        map_Forall (λ _ row, dom row ⊆ dom (FieldMap e)) tb.

(** ** The values of the acceptance test *)

Module Example.
Import mocks.

Definition ctx : Context := {| NamespaceFromContext := "default" |}.
Definition customNamespaceCtx : Context := {| NamespaceFromContext := "ns" |}.

Definition t2009 : Z := 1257894000.

Definition entityMissingID : Model :=
  {| ID := 0; Version := 0; Content := "entity1"; CreatedAt := t2009 |}.
Definition entity1 : Model :=
  {| ID := 1; Version := 0; Content := "entity1"; CreatedAt := t2009 |}.
Definition entity1Alt : Model :=
  {| ID := 1; Version := 0; Content := "entity1Alt"; CreatedAt := t2009 |}.
Definition entity2 : Model :=
  {| ID := 2; Version := 0; Content := "entity2"; CreatedAt := t2009 |}.

Definition factory : unit → Model := λ _, zero.

(** The sqlx repository of the integration test, before and after
    [SetEntityFactory]. *)
Definition config : Sqlx.Config :=
  {| Sqlx.TableName := "models"; Sqlx.dbName := None |}.
Definition unset : Sqlx.Repo Model :=
  {| Sqlx.client := {| Sqlx.driverName := "postgres" |};
     Sqlx.config := {| Sqlx.TableName := "models";
                       Sqlx.dbName := Some (λ ctx, "models" +:+ "_" +:+ NamespaceFromContext ctx) |};
     Sqlx.factoryFn := None |}.
Definition r : Sqlx.Repo Model :=
  {| Sqlx.client := unset.(Sqlx.client);
     Sqlx.config := unset.(Sqlx.config);
     Sqlx.factoryFn := Some factory |}.

(** The database with the relation [models]. *)
Definition world (tb : gmap N (gmap string Value))
  : World (gmap string (gmap N (gmap string Value))) Sqlx.Call :=
  {| conn := {[ "models" := tb ]}; calls := [] |}.

(** A row of [models] whose [content] is NULL, which the schema of the
    integration test allows. *)
Definition null_content : gmap string Value :=
  <["id" := VUUID 3]>
    (<["version" := VInt 0]>
       (<["content" := VNull]>
          (<["created_at" := VTime t2009]> ∅))).

(** The go-pg repository of the integration test. *)
Definition pg_unset : GoPg.Repo Model :=
  {| GoPg.client := {| GoPg.Addr := "localhost:5432" |};
     GoPg.config := {| GoPg.cfg_Addr := "localhost:5432"; GoPg.cfg_Database := "postgres";
                       GoPg.cfg_User := "postgres"; GoPg.cfg_Password := "postgres" |};
     GoPg.factoryFn := None |}.
Definition pg : GoPg.Repo Model :=
  {| GoPg.client := pg_unset.(GoPg.client);
     GoPg.config := pg_unset.(GoPg.config);
     GoPg.factoryFn := Some factory |}.

Definition pg_world (tb : gmap N (gmap string Value)) (skip : bool)
  : World GoPgRef.Store (GoPg.Call Model) :=
  {| conn := {| GoPgRef.rows := tb; GoPgRef.skip_insert := skip |};
     calls := [] |}.
End Example.

(** ** Configuration and dialling *)

(** A call that may end the process ([log.Fatalf]). *)
Inductive exits (A : Type) :=
| Continues (a : A)
| Fatalf (msg : string).
Global Arguments Continues {A} a.
Global Arguments Fatalf {A} msg.

(** [os.Getenv] on an environment: a variable that is not set reads as
    the empty string. *)
Definition Getenv (env : gmap string string) (key : string) : string :=
  default "" (env !! key).

Module SqlxSetup.

Record DBConfig := {
  Host : string;
  Port : Z;
  Database : string;
  User : string;
  Password : string
}.

Definition GetConnString (d : DBConfig) : string :=
  if decide (d.(Database) = "") then
    "host=" +:+ d.(Host) +:+ " port=" +:+ pretty d.(Port) +:+ " user="
      +:+ d.(User) +:+ " password=" +:+ d.(Password)
      +:+ " sslmode=disable timezone=UCT"
  else
    "host=" +:+ d.(Host) +:+ " port=" +:+ pretty d.(Port) +:+ " user="
      +:+ d.(User) +:+ " password=" +:+ d.(Password) +:+ " dbname="
      +:+ d.(Database) +:+ " sslmode=disable timezone=UCT".

Definition with_Host (d : DBConfig) (x : string) : DBConfig :=
  {| Host := x; Port := d.(Port); Database := d.(Database);
     User := d.(User); Password := d.(Password) |}.
Definition with_Port (d : DBConfig) (x : Z) : DBConfig :=
  {| Host := d.(Host); Port := x; Database := d.(Database);
     User := d.(User); Password := d.(Password) |}.
Definition with_Database (d : DBConfig) (x : string) : DBConfig :=
  {| Host := d.(Host); Port := d.(Port); Database := x;
     User := d.(User); Password := d.(Password) |}.
Definition with_User (d : DBConfig) (x : string) : DBConfig :=
  {| Host := d.(Host); Port := d.(Port); Database := d.(Database);
     User := x; Password := d.(Password) |}.
Definition with_Password (d : DBConfig) (x : string) : DBConfig :=
  {| Host := d.(Host); Port := d.(Port); Database := d.(Database);
     User := d.(User); Password := x |}.

Section setup.
(** [strconv.Atoi] and [sqlx.Connect], which the package calls. *)
Variable Atoi : string → Z * option string.
Variable Connect : string → string → option Sqlx.DB * option string.

(** [provideDefaults], on the [DbConfig] the caller left in the
    configuration ([None] for a nil pointer): what it returns is the
    [DbConfig] the configuration holds afterwards. *)
Definition provideDefaults (env : gmap string string)
    (given : option DBConfig) : exits DBConfig :=
  let d := {| Host := ""; Port := 0; Database := ""; User := ""; Password := "" |} in
  let d :=
    if decide (d.(Host) = "") then
      let host := Getenv env "POSTGRES_HOST" in
      if decide (host = "") then with_Host d "localhost" else with_Host d host
    else d in
  let port_set : exits DBConfig :=
    if decide (d.(Port) = 0%Z) then
      let defaultPort := 5432%Z in
      let port := Getenv env "POSTGRES_PORT" in
      if decide (port = "") then Continues (with_Port d defaultPort)
      else
        let '(p, err) := Atoi port in
        if decide (p = 0%Z) then Continues (with_Port d defaultPort)
        else match err with
             | Some err => Fatalf ("could not cast port: " +:+ err)
             | None => Continues (with_Port d p)
             end
    else Continues d in
  match port_set with
  | Fatalf msg => Fatalf msg
  | Continues d =>
      let d :=
        if decide (d.(Database) = "") then
          let db := Getenv env "POSTGRES_DB" in
          if decide (db = "") then with_Database d "postgres"
          else with_Database d db
        else d in
      let d :=
        if decide (d.(User) = "") then
          let user := Getenv env "POSTGRES_USER" in
          if decide (user = "") then with_User d "postgres"
          else with_User d user
        else d in
      let d :=
        if decide (d.(Password) = "") then
          let pwd := Getenv env "POSTGRES_PASSWORD" in
          if decide (pwd = "") then with_Password d "postgres"
          else with_Password d pwd
        else d in
      Continues d
  end.

Definition NewRepo {E : Type} (env : gmap string string)
    (config : Sqlx.Config) (given : option DBConfig)
  : exits (option (Sqlx.Repo E) * option error_value) :=
  match provideDefaults env given with
  | Fatalf msg => Fatalf msg
  | Continues d =>
      let '(client, err) := Connect "postgres" (GetConnString d) in
      match err with
      | Some _ =>
          Continues (None, Some (Envelope {| Err := Some (New ErrCouldNotDialDB);
                                             BaseErr := driver_error err;
                                             Namespace := "" |}))
      | None => Continues (Sqlx.NewRepoWithClient config client)
      end
  end.
End setup.
End SqlxSetup.

(** A [strconv.Atoi] for the examples: it reads 6543 and no other
    number. *)
Definition Atoi_6543 (s : string) : Z * option string :=
  if decide (s = "6543") then (6543%Z, None)
  else (0%Z, Some "strconv.Atoi: invalid syntax").

Module GoPgSetup.
Import GoPg.

Definition provideDefaults (env : gmap string string) (c : Config) : Config :=
  let c :=
    if decide (c.(cfg_Addr) = "") then
      {| cfg_Addr := Getenv env "POSTGRES_ADDR"; cfg_Database := c.(cfg_Database);
         cfg_User := c.(cfg_User); cfg_Password := c.(cfg_Password) |}
    else c in
  let c :=
    if decide (c.(cfg_Database) = "") then
      {| cfg_Addr := c.(cfg_Addr); cfg_Database := Getenv env "POSTGRES_DB";
         cfg_User := c.(cfg_User); cfg_Password := c.(cfg_Password) |}
    else c in
  let c :=
    if decide (c.(cfg_User) = "") then
      {| cfg_Addr := c.(cfg_Addr); cfg_Database := c.(cfg_Database);
         cfg_User := Getenv env "POSTGRES_USER"; cfg_Password := c.(cfg_Password) |}
    else c in
  let c :=
    if decide (c.(cfg_Password) = "") then
      {| cfg_Addr := c.(cfg_Addr); cfg_Database := c.(cfg_Database);
         cfg_User := c.(cfg_User); cfg_Password := Getenv env "POSTGRES_PASSWORD" |}
    else c in
  c.

(** [pg.Options], as [NewRepo] fills them. *)
Record Options := {
  opt_Addr : string;
  opt_Database : string;
  opt_User : string;
  opt_Password : string
}.

Section setup.
(** [pg.Connect], which the package calls. *)
Variable Connect : Options → option DB.

(** [NewRepo]; the configuration is shared with the caller, and is
    returned as [provideDefaults] left it. *)
Definition NewRepo {E : Type} (env : gmap string string) (config : Config)
  : Config * (option (Repo E) * option error_value) :=
  let config := provideDefaults env config in
  let client := Connect {| opt_Addr := config.(cfg_Addr);
                           opt_Database := config.(cfg_Database);
                           opt_User := config.(cfg_User);
                           opt_Password := config.(cfg_Password) |} in
  (config, NewRepoWithClient config client).
End setup.
End GoPgSetup.

(** ** The chain of repositories *)

Module Chain.

(** An [eh.ReadRepo]: the nil interface, a [*Repo] of this package (nil
    or not), or a repository of another type, named by its address. *)
Inductive ReadRepo (R : Type) :=
| NilRepo
| This (r : option R)
| Other (a : N).
Global Arguments NilRepo {R}.
Global Arguments This {R} r.
Global Arguments Other {R} a.

Section chain.
Context {R : Type}.

(** [Parent()] of the repositories of other types, by address.  Nothing
    keeps such a repository from being its own ancestor. *)
Variable Parent : N → ReadRepo R.

(** [Repository], its recursion followed to the depth [fuel]: [None]
    when the call at that depth is one more recursive call, [Some]
    around the pointer returned otherwise. *)
Fixpoint Repository (fuel : nat) (repo : ReadRepo R) : option (option R) :=
  match repo with
  | NilRepo => Some None
  | This r => Some r
  | Other a =>
      match fuel with
      | O => None
      | S fuel => Repository fuel (Parent a)
      end
  end.

(** The repository [n] calls of [Parent()] above [repo]; the walk stays
    where it is once it has left the repositories of other types. *)
Fixpoint ancestor (n : nat) (repo : ReadRepo R) : ReadRepo R :=
  match n, repo with
  | S n, Other a => ancestor n (Parent a)
  | _, _ => repo
  end.
End chain.

(** [Parent()] of a repository of this package, as an [eh.ReadRepo]. *)
Definition of_Parent {R : Type} (parent : option R) : ReadRepo R :=
  match parent with
  | None => NilRepo
  | Some r => This (Some r)
  end.
End Chain.

(** ** Relations that hold entities *)

(** The relation [t] of the database holds the rows of the entities
    [ents], each under its key. *)
Definition holds {E : Type} `{!Reflect E}
    (st : gmap string (gmap N (gmap string Value))) (t : string)
    (ents : gmap N E) : Prop :=
  st !! t = Some (FieldMap <$> ents).

(** The relation of the go-pg model holds the rows of the entities
    [ents], each under its own identifier. *)
Definition pg_holds {E : Type} `{!Entity E, !Reflect E}
    (st : GoPgRef.Store) (ents : gmap N E) : Prop :=
  GoPgRef.rows st = FieldMap <$> ents
  ∧ map_Forall (λ k e, EntityID e = k) ents.

(** ** The acceptance test *)

Module Acceptance.
Import mocks.

(** [time.Date(2009, time.November, 10, 23, 0, 0, 0, time.FixedZone("", 0))] *)
Definition created : Z := 1257894000.

(** [err.(eh.RepoError)] succeeds and the field [get] of the envelope is
    the sentinel [s]. *)
Definition is_RepoError (get : RepoError → option cause) (s : Sentinel)
    (err : option error_value) : bool :=
  match err with
  | Some (Envelope e) => bool_decide (get e = Some (New s))
  | _ => false
  end.

(** The entities the test saves. *)
Definition entityMissingID : Model :=
  {| ID := uuid_Nil; Version := 0; Content := "entity1"; CreatedAt := created |}.
Definition entity1 (u1 : UUID) : Model :=
  {| ID := u1; Version := 0; Content := "entity1"; CreatedAt := created |}.
Definition entity1Alt (entity1 : Model) : Model :=
  {| ID := entity1.(ID); Version := 0; Content := "entity1Alt";
     CreatedAt := created |}.
Definition entity2 (u2 : UUID) : Model :=
  {| ID := u2; Version := 0; Content := "entity2"; CreatedAt := created |}.

(** [t.Error(msg, ...)] when [failed]. *)
Definition check (failed : bool) (msg : string) (errors : list string)
  : list string :=
  if failed then errors ++ [msg] else errors.

Section test.
Context {St : Type} `{!Sqlx.Client St Model}.

(** [AcceptanceTest], run on the sqlx repository as the integration test
    runs it; [u0], [u1] and [u2] are what the three calls of [uuid.New]
    return, and the result is what [t.Error] was called with. *)
Definition AcceptanceTest (ctx : Context) (r : Sqlx.Repo Model)
    (u0 u1 u2 : UUID) : M St Sqlx.Call (list string) :=
  let t := [] in
  '(entity, err) ← Sqlx.Find r ctx u0;
  let t := check (negb (is_RepoError Err ErrEntityNotFound err))
             "there should be a ErrEntityNotFound error:" t in
  let t := check (bool_decide (entity ≠ None)) "there should be no entity:" t in
  '(result, err) ← Sqlx.FindAll r ctx;
  let t := check (bool_decide (err ≠ None)) "there should be no error:" t in
  let t := check (bool_decide (length result ≠ 0)) "there should be no items:" t in
  let entityMissingID := entityMissingID in
  err ← Sqlx.Save r ctx entityMissingID;
  let t := check (negb (is_RepoError BaseErr ErrMissingEntityID err))
             "there should be a ErrMissingEntityID error:" t in
  let entity1 := entity1 u1 in
  err ← Sqlx.Save r ctx entity1;
  let t := check (bool_decide (err ≠ None)) "there should be no error:" t in
  '(entity, err) ← Sqlx.Find r ctx entity1.(ID);
  let t := check (bool_decide (err ≠ None)) "there should be no error:" t in
  let t := check (bool_decide (entity ≠ Some entity1))
             "the item should be correct:" t in
  '(result, err) ← Sqlx.FindAll r ctx;
  let t := check (bool_decide (err ≠ None)) "there should be no error:" t in
  let t := check (bool_decide (length result ≠ 1)) "there should be one item:" t in
  let t := check (bool_decide (result ≠ [entity1]))
             "the item should be correct:" t in
  let entity1Alt := entity1Alt entity1 in
  err ← Sqlx.Save r ctx entity1Alt;
  let t := check (bool_decide (err ≠ None)) "there should be no error:" t in
  '(entity, err) ← Sqlx.Find r ctx entity1Alt.(ID);
  let t := check (bool_decide (err ≠ None)) "there should be no error:" t in
  let t := check (bool_decide (entity ≠ Some entity1Alt))
             "the item should be correct:" t in
  let entity2 := entity2 u2 in
  err ← Sqlx.Save r ctx entity2;
  let t := check (bool_decide (err ≠ None)) "there should be no error:" t in
  '(entity, err) ← Sqlx.Find r ctx entity2.(ID);
  let t := check (bool_decide (err ≠ None)) "there should be no error:" t in
  let t := check (bool_decide (entity ≠ Some entity2))
             "the item should be correct:" t in
  '(result, err) ← Sqlx.FindAll r ctx;
  let t := check (bool_decide (err ≠ None)) "there should be no error:" t in
  let t := check (bool_decide (length result ≠ 2)) "there should be two items:" t in
  let t := check (bool_decide (result ≠ [entity1Alt; entity2])
                  && bool_decide (result ≠ [entity2; entity1Alt]))
             "the items should be correct:" t in
  err ← Sqlx.Remove r ctx entity1Alt.(ID);
  let t := check (bool_decide (err ≠ None)) "there should be no error:" t in
  '(entity, err) ← Sqlx.Find r ctx entity1Alt.(ID);
  let t := check (negb (is_RepoError Err ErrEntityNotFound err))
             "there should be a ErrEntityNotFound error:" t in
  let t := check (bool_decide (entity ≠ None)) "there should be no entity:" t in
  err ← Sqlx.Remove r ctx entity1Alt.(ID);
  let t := check (negb (is_RepoError Err ErrEntityNotFound err))
             "there should be a ErrEntityNotFound error:" t in
  mret t.
End test.
End Acceptance.

(** * Properties *)

Ltac run :=
  unfold mbind, M_bind, bind, call, ret, M_ret, panic; simpl.

(** ** The entity of the package obeys the laws *)

Global Instance Model_ReflectLaws : ReflectLaws mocks.Model.
Proof.
  split.
  - intros [i v c t] dest. simpl. unfold mocks.Model_scan, mocks.Model_FieldMap.
    rewrite bool_decide_eq_true_2.
    + by simplify_map_eq.
    + rewrite !dom_insert_L, dom_empty_L. unfold mocks.columns. simpl. set_solver.
  - intros e. simpl. unfold mocks.Model_FieldMap. by simplify_map_eq.
Qed.

(** ** The statement [Save] builds *)

Section saveLoop.
Import Sqlx.

Lemma saveLoop_from (l : list (string * Value)) (mapFields : list string)
    (mapValues : gmap string Value) (excludedFields : list (string * string)) :
  foldl (λ '(mapFields, mapValues, excludedFields) '(field, v),
           (mapFields ++ [field],
            <[field := v]> mapValues,
            excludedFields ++ [(field, field)]))
        (mapFields, mapValues, excludedFields) l
  = (mapFields ++ l.*1,
     foldl (λ m kv, <[kv.1 := kv.2]> m) mapValues l,
     excludedFields ++ ((λ f, (f, f)) <$> l.*1)).
Proof.
  revert mapFields mapValues excludedFields.
  induction l as [|[field v] l IH]; intros mf mv ef; simpl.
  - by rewrite !app_nil_r.
  - rewrite IH, <-!app_assoc. reflexivity.
Qed.

Lemma foldl_insert_list_to_map (l : list (string * Value)) :
  NoDup l.*1 →
  foldl (λ m kv, <[kv.1 := kv.2]> m) (∅ : gmap string Value) l = list_to_map l.
Proof.
  induction l as [|[k v] l IH] using rev_ind; intros Hnd; [done|].
  rewrite fmap_app in Hnd. apply NoDup_app in Hnd as (Hl & Hk & _).
  rewrite foldl_snoc, IH by done. simpl.
  rewrite list_to_map_snoc; [done|].
  intros Hin. apply (Hk k Hin). simpl. by apply list_elem_of_singleton.
Qed.

(** The three results of the loop: the names of the mapped fields, the
    mapped fields themselves, and one [field = EXCLUDED.field] for
    every name. *)
Lemma saveLoop_map_to_list (fields : gmap string Value) :
  saveLoop (map_to_list fields)
  = ((map_to_list fields).*1, fields,
     (λ f, (f, f)) <$> (map_to_list fields).*1).
Proof.
  unfold saveLoop. rewrite saveLoop_from. simpl.
  rewrite foldl_insert_list_to_map by apply NoDup_fst_map_to_list.
  by rewrite list_to_map_to_list.
Qed.
End saveLoop.

(** ** The sqlx repository on the reference client *)

Section sqlx_reference.
Import Sqlx SqlxRef.
Context {E : Type} `{!Entity E, !Reflect E, !ReflectLaws E}.

Implicit Types (r : Repo E) (e : E) (ctx : Context)
  (w : World (gmap string (gmap N (gmap string Value))) Call).

Lemma proposed_all (fields : gmap string Value) :
  proposed (map_to_list fields).*1 fields = Some fields.
Proof.
  unfold proposed.
  assert (∀ l : list (string * Value),
            Forall (λ kv, fields !! kv.1 = Some kv.2) l →
            mapM (λ f, (f,.) <$> fields !! f) l.*1 = Some l) as Hall.
  { induction l as [|[k v] l IH]; intros Hl; [done|].
    apply Forall_cons in Hl as [Hk Hl].
    rewrite fmap_cons. cbn [mapM]. simpl in Hk |- *.
    rewrite Hk. simpl. by rewrite (IH Hl). }
  rewrite Hall.
  - simpl. by rewrite list_to_map_to_list.
  - apply Forall_forall. intros [k v] Hin. by apply elem_of_map_to_list.
Qed.

Lemma do_update_lookup (l : list string) (new old : gmap string Value) k :
  do_update ((λ f, (f, f)) <$> l) new old !! k
  = if decide (k ∈ l) then Some (default VNull (new !! k)) else old !! k.
Proof.
  revert old. induction l as [|f l IH]; intros old.
  - rewrite decide_False by apply not_elem_of_nil. done.
  - unfold do_update in *. rewrite fmap_cons. cbn [foldl]. rewrite IH.
    destruct (decide (k ∈ l)) as [Hl|Hl].
    + rewrite decide_True by (by right). done.
    + destruct (decide (k = f)) as [->|Hne].
      * rewrite decide_True by (by left). by rewrite lookup_insert_eq.
      * rewrite decide_False by (by intros [?|?]%elem_of_cons).
        by rewrite lookup_insert_ne.
Qed.

(** Every field is set from the proposed row: when the stored row has
    no column beyond the mapped fields, nothing of it is left. *)
Lemma do_update_all (new old : gmap string Value) :
  dom old ⊆ dom new →
  do_update ((λ f, (f, f)) <$> (map_to_list new).*1) new old = new.
Proof.
  intros Hdom. apply map_eq. intros k. rewrite do_update_lookup.
  destruct (new !! k) as [v|] eqn:Hk.
  - rewrite decide_True; [done|].
    apply list_elem_of_fmap. exists (k, v). split; [done|].
    by apply elem_of_map_to_list.
  - rewrite decide_False.
    + apply not_elem_of_dom. apply not_elem_of_dom in Hk. set_solver.
    + intros ([k' v] & -> & Hin)%list_elem_of_fmap.
      apply elem_of_map_to_list in Hin. simpl in Hk. congruence.
Qed.

(** [Save] on a relation that exists: one upsert, which leaves the
    mapped fields of the entity as the row of its identifier. *)
Lemma Save_stores r ctx e w tb :
  EntityID e ≠ uuid_Nil →
  conn w !! TableName (config r) = Some tb →
  schema_fits (conn w) (TableName (config r)) e →
  ∃ q, Save r ctx e w
       = (Return None,
          {| conn := <[TableName (config r) := <[EntityID e := FieldMap e]> tb]> (conn w);
             calls := calls w ++ [NamedExecContextCall q (FieldMap e)] |})
       ∧ table_of q = TableName (config r).
Proof.
  intros Hid Htb Hfits. unfold Save.
  rewrite decide_False by done.
  rewrite saveLoop_map_to_list. eexists (Upsert _ _ _). split; [|reflexivity].
  run. unfold ref_NamedExecContext. rewrite Htb, proposed_all, FieldMap_id.
  destruct (tb !! EntityID e) as [old|] eqn:Hold; [|done].
  rewrite do_update_all; [done|].
  by apply (Hfits tb Htb (EntityID e) old).
Qed.

(** [Save] on a relation that does not exist fails. *)
Lemma Save_no_relation r ctx e w :
  conn w !! TableName (config r) = None →
  fst (Save r ctx e w) ≠ Return None.
Proof.
  intros Htb. unfold Save. case_decide; [done|].
  rewrite saveLoop_map_to_list. run. unfold ref_NamedExecContext.
  by rewrite Htb.
Qed.

(** C1, as the code has it: on the reference client, for every entity
    [e] with a non-zero
    identifier, every prior state of a relation whose columns the
    entity maps, and a repository with its factory set: when [Save e]
    succeeds, the row stored for the identifier is made of the mapped
    fields of [e] alone, whatever row (and whatever version) was stored
    before, and [Find] of the identifier returns an entity equal to
    [e]. *)
Theorem Save_then_Find r f ctx ctx' e w :
  factoryFn r = Some f →
  EntityID e ≠ uuid_Nil →
  schema_fits (conn w) (TableName (config r)) e →
  fst (Save r ctx e w) = Return None →
  (∃ tb, conn (snd (Save r ctx e w)) !! TableName (config r) = Some tb
         ∧ tb !! EntityID e = Some (FieldMap e))
  ∧ fst (Find r ctx' (EntityID e) (snd (Save r ctx e w)))
    = Return (Some e, None).
Proof.
  intros Hf Hid Hfits Hok.
  destruct (conn w !! TableName (config r)) as [tb|] eqn:Htb;
    [|by destruct (Save_no_relation r ctx e w Htb)].
  destruct (Save_stores r ctx e w tb Hid Htb Hfits) as (q & -> & _). simpl.
  split.
  - eexists. split; [apply lookup_insert_eq|apply lookup_insert_eq].
  - unfold Find. rewrite Hf. run. unfold ref_GetContext.
    rewrite !lookup_insert_eq. by rewrite scan_FieldMap.
Qed.
End sqlx_reference.

(** The acceptance test's overwrite: [entity1Alt] saved over the row of
    [entity1] is what [Find] returns. *)
Lemma Save_then_Find_witness :
  fst (Sqlx.Find Example.r Example.customNamespaceCtx 1
         (snd (Sqlx.Save Example.r Example.ctx Example.entity1Alt
                 (Example.world {[ 1%N := FieldMap Example.entity1 ]}))))
  = Return (Some Example.entity1Alt, None).
Proof.
  refine (proj2 (Save_then_Find Example.r Example.factory Example.ctx
                   Example.customNamespaceCtx Example.entity1Alt
                   (Example.world _) eq_refl _ _ _)).
  - done.
  - intros tb Htb. simpl in Htb. rewrite lookup_singleton_eq in Htb.
    injection Htb as <-. apply map_Forall_singleton.
    simpl. unfold mocks.Model_FieldMap. by rewrite !dom_insert_L.
  - vm_compute. reflexivity.
Defined.

(** ** Both repositories, on any client *)

Section any_client.
Context {St St' E : Type}.
Context `{!Entity E, !Reflect E, !Sqlx.Client St E, !GoPg.Client St' E}.

Implicit Types (r : Sqlx.Repo E) (p : GoPg.Repo E) (ctx : Context) (e : E)
  (w : World St Sqlx.Call) (v : World St' (GoPg.Call E)).

(** *** Find *)

Lemma Sqlx_Find_unset r ctx id w :
  Sqlx.factoryFn r = None →
  Sqlx.Find r ctx id w
  = (Return (None, envelope ErrModelNotSet None (NamespaceFromContext ctx)), w).
Proof. intros Hf. unfold Sqlx.Find. by rewrite Hf. Qed.

Lemma Sqlx_Find_error r f ctx id w dest c :
  Sqlx.factoryFn r = Some f →
  (Sqlx.GetContext (conn w) (f ()) (Sqlx.SelectByID (Sqlx.TableName (Sqlx.config r))) id).2
  = (dest, Some c) →
  fst (Sqlx.Find r ctx id w)
  = Return (None, envelope ErrEntityNotFound (Some (Driver c)) (NamespaceFromContext ctx)).
Proof.
  intros Hf Hreply. unfold Sqlx.Find. rewrite Hf. run.
  destruct (Sqlx.GetContext _ _ _ _) as [s [d err]]. simpl in Hreply.
  by injection Hreply as -> ->.
Qed.

Lemma Sqlx_Find_found r f ctx id w dest :
  Sqlx.factoryFn r = Some f →
  (Sqlx.GetContext (conn w) (f ()) (Sqlx.SelectByID (Sqlx.TableName (Sqlx.config r))) id).2
  = (dest, None) →
  fst (Sqlx.Find r ctx id w) = Return (Some dest, None).
Proof.
  intros Hf Hreply. unfold Sqlx.Find. rewrite Hf. run.
  destruct (Sqlx.GetContext _ _ _ _) as [s [d err]]. simpl in Hreply.
  by injection Hreply as -> ->.
Qed.

Lemma GoPg_Find_unset p ctx id v :
  GoPg.factoryFn p = None →
  GoPg.Find p ctx id v
  = (Return (None, envelope ErrModelNotSet None (NamespaceFromContext ctx)), v).
Proof. intros Hf. unfold GoPg.Find. by rewrite Hf. Qed.

Lemma GoPg_Find_error p f ctx id v dest c :
  GoPg.factoryFn p = Some f →
  (GoPg.Select (conn v) (f ()) id).2 = (dest, Some c) →
  fst (GoPg.Find p ctx id v)
  = Return (None, envelope ErrEntityNotFound (Some (Driver c)) (NamespaceFromContext ctx)).
Proof.
  intros Hf Hreply. unfold GoPg.Find. rewrite Hf. run.
  destruct (GoPg.Select _ _ _) as [s [d err]]. simpl in Hreply.
  by injection Hreply as -> ->.
Qed.

Lemma GoPg_Find_found p f ctx id v dest :
  GoPg.factoryFn p = Some f →
  (GoPg.Select (conn v) (f ()) id).2 = (dest, None) →
  fst (GoPg.Find p ctx id v) = Return (Some (GoPg.Made dest), None).
Proof.
  intros Hf Hreply. unfold GoPg.Find. rewrite Hf. run.
  destruct (GoPg.Select _ _ _) as [s [d err]]. simpl in Hreply.
  by injection Hreply as -> ->.
Qed.

(** *** Save *)

Lemma Sqlx_Save_missing_id r ctx e w :
  EntityID e = uuid_Nil →
  Sqlx.Save r ctx e w
  = (Return (envelope ErrCouldNotSaveEntity (Some (New ErrMissingEntityID))
               (NamespaceFromContext ctx)), w).
Proof. intros Hid. unfold Sqlx.Save. by rewrite decide_True. Qed.

Lemma GoPg_Save_missing_id p ctx e v :
  EntityID e = uuid_Nil →
  GoPg.Save p ctx e v
  = (Return (envelope ErrCouldNotSaveEntity (Some (New ErrMissingEntityID))
               (NamespaceFromContext ctx)), v).
Proof. intros Hid. unfold GoPg.Save. by rewrite decide_True. Qed.

(** Whatever [Save] returns, it is the envelope or [nil]. *)
Lemma Sqlx_Save_envelope r ctx e w err :
  fst (Sqlx.Save r ctx e w) = Return (Some err) →
  ∃ base, Some err = envelope ErrCouldNotSaveEntity base (NamespaceFromContext ctx).
Proof.
  unfold Sqlx.Save. case_decide.
  - intros [= <-]. by eexists.
  - rewrite saveLoop_map_to_list. run.
    destruct (Sqlx.NamedExecContext _ _ _) as [s [[[[n ra]]|] [c|]]]; simpl;
      repeat case_bool_decide; simpl; intros [= <-] || intros [=]; by eexists.
Qed.

Lemma GoPg_Save_envelope p ctx e v err :
  fst (GoPg.Save p ctx e v) = Return (Some err) →
  ∃ base, Some err = envelope ErrCouldNotSaveEntity base (NamespaceFromContext ctx).
Proof.
  unfold GoPg.Save. case_decide.
  - intros [= <-]. by eexists.
  - destruct (GoPg.factoryFn p) as [f|]; [|by intros [=]]. run.
    destruct (GoPg.Select _ _ _) as [s [d serr]]. simpl. case_decide.
    + destruct (GoPg.Update _ _ _) as [s' [[[n]|] [c|]]]; simpl;
        repeat case_bool_decide; simpl; intros [= <-] || intros [=]; by eexists.
    + destruct (GoPg.Insert _ _) as [s' [res [c|]]]; simpl;
        intros [= <-] || intros [=]; by eexists.
Qed.

(** C2: for every entity whose identifier is the zero UUID, [Save] of
    either repository returns the envelope of kind [ErrCouldNotSaveEntity]
    around [ErrMissingEntityID], under the namespace of the context, and
    leaves the world as it was: no call to the client is recorded and the
    connection state, so every row, is unchanged.  [ErrMissingEntityID]
    is never what [Save] returns by itself, for any entity. *)
Theorem Save_missing_id r p ctx e w v :
  EntityID e = uuid_Nil →
  Sqlx.Save r ctx e w
  = (Return (envelope ErrCouldNotSaveEntity (Some (New ErrMissingEntityID))
               (NamespaceFromContext ctx)), w)
  ∧ GoPg.Save p ctx e v
    = (Return (envelope ErrCouldNotSaveEntity (Some (New ErrMissingEntityID))
                 (NamespaceFromContext ctx)), v)
  ∧ (∀ e' w', fst (Sqlx.Save r ctx e' w')
              ≠ Return (Some (Bare (New ErrMissingEntityID))))
  ∧ (∀ e' v', fst (GoPg.Save p ctx e' v')
              ≠ Return (Some (Bare (New ErrMissingEntityID)))).
Proof.
  intros Hid. split; [by apply Sqlx_Save_missing_id|].
  split; [by apply GoPg_Save_missing_id|]. split.
  - intros e' w' Hbare. by apply Sqlx_Save_envelope in Hbare as [base [=]].
  - intros e' v' Hbare. by apply GoPg_Save_envelope in Hbare as [base [=]].
Qed.

End any_client.

(** ** Both repositories, on the reference clients *)

Section reference_clients.
Context {E : Type} `{!Entity E, !Reflect E}.

Implicit Types (r : Sqlx.Repo E) (p : GoPg.Repo E) (ctx : Context) (e : E)
  (w : World (gmap string (gmap N (gmap string Value))) Sqlx.Call)
  (v : World GoPgRef.Store (GoPg.Call E)).

Lemma SqlxRef_Find_no_row r f ctx id w tb :
  Sqlx.factoryFn r = Some f →
  conn w !! Sqlx.TableName (Sqlx.config r) = Some tb →
  tb !! id = None →
  fst (Sqlx.Find r ctx id w)
  = Return (None, envelope ErrEntityNotFound (Some (Driver SqlxRef.no_rows))
                    (NamespaceFromContext ctx)).
Proof.
  intros Hf Htb Hid. apply (Sqlx_Find_error r f ctx id w (f ())); [done|].
  simpl. unfold SqlxRef.ref_GetContext. by rewrite Htb, Hid.
Qed.

Lemma SqlxRef_Find_row r f ctx id w tb row x :
  Sqlx.factoryFn r = Some f →
  conn w !! Sqlx.TableName (Sqlx.config r) = Some tb →
  tb !! id = Some row →
  scan row (f ()) = (x, None) →
  fst (Sqlx.Find r ctx id w) = Return (Some x, None).
Proof.
  intros Hf Htb Hid Hscan. apply (Sqlx_Find_found r f); [done|].
  simpl. unfold SqlxRef.ref_GetContext. by rewrite Htb, Hid.
Qed.

Lemma GoPgRef_Find_no_row p f ctx id v :
  GoPg.factoryFn p = Some f →
  GoPgRef.rows (conn v) !! id = None →
  fst (GoPg.Find p ctx id v)
  = Return (None, envelope ErrEntityNotFound (Some (Driver GoPgRef.no_rows))
                    (NamespaceFromContext ctx)).
Proof.
  intros Hf Hid. apply (GoPg_Find_error p f ctx id v (f ())); [done|].
  simpl. unfold GoPgRef.ref_Select. by rewrite Hid.
Qed.

Lemma GoPgRef_Find_row p f ctx id v row x :
  GoPg.factoryFn p = Some f →
  GoPgRef.rows (conn v) !! id = Some row →
  scan row (f ()) = (x, None) →
  fst (GoPg.Find p ctx id v) = Return (Some (GoPg.Made x), None).
Proof.
  intros Hf Hid Hscan. apply (GoPg_Find_found p f); [done|].
  simpl. unfold GoPgRef.ref_Select. by rewrite Hid.
Qed.

(** [Remove] of an identifier that has no row. *)
Lemma SqlxRef_Remove_absent r ctx id w tb :
  conn w !! Sqlx.TableName (Sqlx.config r) = Some tb →
  tb !! id = None →
  fst (Sqlx.Remove r ctx id w)
  = Return (envelope ErrEntityNotFound None (NamespaceFromContext ctx)).
Proof.
  intros Htb Hid. unfold Sqlx.Remove. run. unfold SqlxRef.ref_ExecContext.
  by rewrite Htb, Hid.
Qed.

(** [Remove] succeeds on a row only, and takes it away. *)
Lemma SqlxRef_Remove_done r ctx id w :
  fst (Sqlx.Remove r ctx id w) = Return None →
  ∃ tb, conn w !! Sqlx.TableName (Sqlx.config r) = Some tb
        ∧ is_Some (tb !! id)
        ∧ conn (snd (Sqlx.Remove r ctx id w))
          = <[Sqlx.TableName (Sqlx.config r) := delete id tb]> (conn w).
Proof.
  unfold Sqlx.Remove. run. unfold SqlxRef.ref_ExecContext.
  destruct (conn w !! _) as [tb|] eqn:Htb; [|by intros [=]].
  destruct (tb !! id) as [row|] eqn:Hid; [|by intros [=]].
  intros _. exists tb. by rewrite Hid.
Qed.

Lemma SqlxRef_Remove_twice r ctx ctx' id w :
  fst (Sqlx.Remove r ctx id w) = Return None →
  fst (Sqlx.Remove r ctx' id (snd (Sqlx.Remove r ctx id w)))
  = Return (envelope ErrEntityNotFound None (NamespaceFromContext ctx')).
Proof.
  intros (tb & Htb & _ & Hconn)%SqlxRef_Remove_done.
  apply (SqlxRef_Remove_absent _ _ _ _ (delete id tb)).
  - rewrite Hconn. apply lookup_insert_eq.
  - apply lookup_delete_eq.
Qed.

Lemma GoPgRef_Remove_absent p f ctx id v :
  GoPg.factoryFn p = Some f →
  GoPgRef.rows (conn v) !! id = None →
  fst (GoPg.Remove p ctx id v)
  = Return (envelope ErrEntityNotFound None (NamespaceFromContext ctx)).
Proof.
  intros Hf Hid. unfold GoPg.Remove. rewrite Hf. run.
  unfold GoPgRef.ref_Delete. by rewrite Hid.
Qed.

Lemma GoPgRef_Remove_twice p ctx ctx' id v :
  fst (GoPg.Remove p ctx id v) = Return None →
  fst (GoPg.Remove p ctx' id (snd (GoPg.Remove p ctx id v)))
  = Return (envelope ErrEntityNotFound None (NamespaceFromContext ctx')).
Proof.
  destruct (GoPg.factoryFn p) as [f|] eqn:Hf;
    [|unfold GoPg.Remove; by rewrite Hf].
  intros Hok. apply (GoPgRef_Remove_absent p f); [done|].
  revert Hok. unfold GoPg.Remove. rewrite Hf. run. unfold GoPgRef.ref_Delete.
  destruct (GoPgRef.rows (conn v) !! id) as [row|] eqn:Hid; [|by intros [=]].
  intros _. simpl. apply lookup_delete_eq.
Qed.

End reference_clients.

(** ** What the callers are told *)

Section outcomes.
Context {St St' E : Type}.
Context `{!Entity E, !Reflect E, !Sqlx.Client St E, !GoPg.Client St' E}.

Implicit Types (r : Sqlx.Repo E) (p : GoPg.Repo E) (ctx : Context) (e : E)
  (w : World St Sqlx.Call) (v : World St' (GoPg.Call E))
  (rw : World (gmap string (gmap N (gmap string Value))) Sqlx.Call)
  (rv : World GoPgRef.Store (GoPg.Call E)).

(** C4: [Find] of either repository.  Without a factory it returns the
    envelope of kind [ErrModelNotSet] and leaves the world as it was.
    With a factory, the client is given the entity the factory made:
    when the client returns an error, as it does for no matching row,
    [Find] returns no entity and the envelope of kind [ErrEntityNotFound]
    around that error; when it returns none, [Find] returns the entity
    the client filled and no error.  On the reference clients, an
    identifier without a row gives the first case, and an identifier
    with a row gives the factory's entity with that row scanned into
    it. *)
Theorem Find_outcomes r p f ctx id w v rw rv :
  (Sqlx.factoryFn r = None →
   Sqlx.Find r ctx id w
   = (Return (None, envelope ErrModelNotSet None (NamespaceFromContext ctx)), w))
  ∧ (GoPg.factoryFn p = None →
     GoPg.Find p ctx id v
     = (Return (None, envelope ErrModelNotSet None (NamespaceFromContext ctx)), v))
  ∧ (Sqlx.factoryFn r = Some f →
     ∀ dest c,
       (Sqlx.GetContext (conn w) (f ())
          (Sqlx.SelectByID (Sqlx.TableName (Sqlx.config r))) id).2
       = (dest, Some c) →
       fst (Sqlx.Find r ctx id w)
       = Return (None, envelope ErrEntityNotFound (Some (Driver c))
                         (NamespaceFromContext ctx)))
  ∧ (GoPg.factoryFn p = Some f →
     ∀ dest c,
       (GoPg.Select (conn v) (f ()) id).2 = (dest, Some c) →
       fst (GoPg.Find p ctx id v)
       = Return (None, envelope ErrEntityNotFound (Some (Driver c))
                         (NamespaceFromContext ctx)))
  ∧ (Sqlx.factoryFn r = Some f →
     ∀ dest,
       (Sqlx.GetContext (conn w) (f ())
          (Sqlx.SelectByID (Sqlx.TableName (Sqlx.config r))) id).2
       = (dest, None) →
       fst (Sqlx.Find r ctx id w) = Return (Some dest, None))
  ∧ (GoPg.factoryFn p = Some f →
     ∀ dest,
       (GoPg.Select (conn v) (f ()) id).2 = (dest, None) →
       fst (GoPg.Find p ctx id v) = Return (Some (GoPg.Made dest), None))
  ∧ (Sqlx.factoryFn r = Some f →
     ∀ tb, conn rw !! Sqlx.TableName (Sqlx.config r) = Some tb →
       match tb !! id with
       | None =>
           fst (Sqlx.Find r ctx id rw)
           = Return (None, envelope ErrEntityNotFound
                             (Some (Driver SqlxRef.no_rows))
                             (NamespaceFromContext ctx))
       | Some row =>
           ∀ x, scan row (f ()) = (x, None) →
                fst (Sqlx.Find r ctx id rw) = Return (Some x, None)
       end)
  ∧ (GoPg.factoryFn p = Some f →
     match GoPgRef.rows (conn rv) !! id with
     | None =>
         fst (GoPg.Find p ctx id rv)
         = Return (None, envelope ErrEntityNotFound
                           (Some (Driver GoPgRef.no_rows))
                           (NamespaceFromContext ctx))
     | Some row =>
         ∀ x, scan row (f ()) = (x, None) →
              fst (GoPg.Find p ctx id rv) = Return (Some (GoPg.Made x), None)
     end).
Proof.
  split; [apply Sqlx_Find_unset|]. split; [apply GoPg_Find_unset|].
  split; [intros; by eapply Sqlx_Find_error|].
  split; [intros; by eapply GoPg_Find_error|].
  split; [intros; by eapply Sqlx_Find_found|].
  split; [intros; by eapply GoPg_Find_found|]. split.
  - intros Hf tb Htb. destruct (tb !! id) as [row|] eqn:Hid.
    + intros x Hx. by eapply SqlxRef_Find_row.
    + by eapply SqlxRef_Find_no_row.
  - intros Hf. destruct (GoPgRef.rows (conn rv) !! id) as [row|] eqn:Hid.
    + intros x Hx. by eapply GoPgRef_Find_row.
    + by eapply GoPgRef_Find_no_row.
Qed.

(** *** Remove *)

Lemma Sqlx_Remove_error r ctx id w res c :
  (Sqlx.ExecContext (conn w)
     (Sqlx.DeleteByID (Sqlx.TableName (Sqlx.config r))) id).2 = (res, Some c) →
  fst (Sqlx.Remove r ctx id w)
  = Return (envelope ErrCouldNotRemoveEntity (Some (Driver c))
              (NamespaceFromContext ctx)).
Proof.
  intros Hreply. unfold Sqlx.Remove. run.
  destruct (Sqlx.ExecContext _ _ _) as [s [res' err]]. simpl in Hreply.
  by injection Hreply as -> ->.
Qed.

Lemma Sqlx_Remove_rows r ctx id w res n err :
  (Sqlx.ExecContext (conn w)
     (Sqlx.DeleteByID (Sqlx.TableName (Sqlx.config r))) id).2
  = (Some res, None) →
  Sqlx.RowsAffected res = (n, err) →
  fst (Sqlx.Remove r ctx id w)
  = Return (if decide (n = 1%Z) then None
            else envelope ErrEntityNotFound (driver_error err)
                   (NamespaceFromContext ctx)).
Proof.
  intros Hreply Hn. unfold Sqlx.Remove. run.
  destruct (Sqlx.ExecContext _ _ _) as [s [res' err']]. simpl in Hreply.
  injection Hreply as -> ->. simpl. rewrite Hn.
  case_bool_decide; case_decide; done.
Qed.

Lemma Sqlx_Remove_success r ctx id w :
  fst (Sqlx.Remove r ctx id w) = Return None
  ↔ ∃ res err,
      (Sqlx.ExecContext (conn w)
         (Sqlx.DeleteByID (Sqlx.TableName (Sqlx.config r))) id).2
      = (Some res, None)
      ∧ Sqlx.RowsAffected res = (1%Z, err).
Proof.
  split.
  - unfold Sqlx.Remove. run.
    destruct (Sqlx.ExecContext _ _ _) as [s [[[[n err]]|] [c|]]]; simpl;
      try (by intros [=]).
    case_bool_decide as Hn; [by intros [=]|]. intros _.
    subst n. by eexists _, _.
  - intros (res & err & Hreply & Hn).
    rewrite (Sqlx_Remove_rows r ctx id w res 1 err) by done.
    by rewrite decide_True.
Qed.

Lemma GoPg_Remove_unset p ctx id v :
  GoPg.factoryFn p = None →
  GoPg.Remove p ctx id v
  = (Return (envelope ErrModelNotSet None (NamespaceFromContext ctx)), v).
Proof. intros Hf. unfold GoPg.Remove. by rewrite Hf. Qed.

Lemma GoPg_Remove_error p f ctx id v res c :
  GoPg.factoryFn p = Some f →
  (GoPg.Delete (conn v) (f ()) id).2 = (res, Some c) →
  fst (GoPg.Remove p ctx id v)
  = Return (envelope ErrCouldNotRemoveEntity (Some (Driver c))
              (NamespaceFromContext ctx)).
Proof.
  intros Hf Hreply. unfold GoPg.Remove. rewrite Hf. run.
  destruct (GoPg.Delete _ _ _) as [s [res' err]]. simpl in Hreply.
  by injection Hreply as -> ->.
Qed.

Lemma GoPg_Remove_rows p f ctx id v res :
  GoPg.factoryFn p = Some f →
  (GoPg.Delete (conn v) (f ()) id).2 = (Some res, None) →
  fst (GoPg.Remove p ctx id v)
  = Return (if decide (GoPg.RowsAffected res = 1%Z) then None
            else envelope ErrEntityNotFound None (NamespaceFromContext ctx)).
Proof.
  intros Hf Hreply. unfold GoPg.Remove. rewrite Hf. run.
  destruct (GoPg.Delete _ _ _) as [s [res' err']]. simpl in Hreply.
  injection Hreply as -> ->. simpl.
  case_bool_decide; case_decide; done.
Qed.

(** The client returns a result whenever it returns no error. *)
Lemma GoPg_Remove_success p f ctx id v :
  GoPg.factoryFn p = Some f →
  ((GoPg.Delete (conn v) (f ()) id).2.2 = None →
   is_Some (GoPg.Delete (conn v) (f ()) id).2.1) →
  fst (GoPg.Remove p ctx id v) = Return None
  ↔ ∃ res, (GoPg.Delete (conn v) (f ()) id).2 = (Some res, None)
           ∧ GoPg.RowsAffected res = 1%Z.
Proof.
  intros Hf Hres. split.
  - unfold GoPg.Remove. rewrite Hf. run.
    destruct (GoPg.Delete _ _ _) as [s [[[n]|] [c|]]]; simpl in *;
      try (by intros [=]).
    + case_bool_decide as Hn; [by intros [=]|]. intros _.
      subst n. by eexists.
    + by destruct (Hres eq_refl).
  - intros (res & Hreply & Hn).
    rewrite (GoPg_Remove_rows p f ctx id v res) by done.
    by rewrite decide_True.
Qed.

(** C5: [Remove] of either repository.  It returns [nil] exactly when
    the client returned no error and a result that reports one row (for
    go-pg, with the factory set and a client that returns a result
    whenever it returns no error); an error of the client gives the
    envelope of kind [ErrCouldNotRemoveEntity] around it; a result that
    reports another number of rows, zero among them, gives the envelope
    of kind [ErrEntityNotFound].  On the reference clients, [Remove] of
    an identifier without a row is such a failure, and so is the second
    of two [Remove] of one identifier. *)
Theorem Remove_outcomes r p f ctx ctx' id w v rw rv :
  (fst (Sqlx.Remove r ctx id w) = Return None
   ↔ ∃ res err,
       (Sqlx.ExecContext (conn w)
          (Sqlx.DeleteByID (Sqlx.TableName (Sqlx.config r))) id).2
       = (Some res, None)
       ∧ Sqlx.RowsAffected res = (1%Z, err))
  ∧ (∀ res c,
       (Sqlx.ExecContext (conn w)
          (Sqlx.DeleteByID (Sqlx.TableName (Sqlx.config r))) id).2
       = (res, Some c) →
       fst (Sqlx.Remove r ctx id w)
       = Return (envelope ErrCouldNotRemoveEntity (Some (Driver c))
                   (NamespaceFromContext ctx)))
  ∧ (∀ res n err,
       (Sqlx.ExecContext (conn w)
          (Sqlx.DeleteByID (Sqlx.TableName (Sqlx.config r))) id).2
       = (Some res, None) →
       Sqlx.RowsAffected res = (n, err) →
       n ≠ 1%Z →
       fst (Sqlx.Remove r ctx id w)
       = Return (envelope ErrEntityNotFound (driver_error err)
                   (NamespaceFromContext ctx)))
  ∧ (GoPg.factoryFn p = Some f →
     ((GoPg.Delete (conn v) (f ()) id).2.2 = None →
      is_Some (GoPg.Delete (conn v) (f ()) id).2.1) →
     fst (GoPg.Remove p ctx id v) = Return None
     ↔ ∃ res, (GoPg.Delete (conn v) (f ()) id).2 = (Some res, None)
              ∧ GoPg.RowsAffected res = 1%Z)
  ∧ (GoPg.factoryFn p = Some f →
     ∀ res c,
       (GoPg.Delete (conn v) (f ()) id).2 = (res, Some c) →
       fst (GoPg.Remove p ctx id v)
       = Return (envelope ErrCouldNotRemoveEntity (Some (Driver c))
                   (NamespaceFromContext ctx)))
  ∧ (GoPg.factoryFn p = Some f →
     ∀ res,
       (GoPg.Delete (conn v) (f ()) id).2 = (Some res, None) →
       GoPg.RowsAffected res ≠ 1%Z →
       fst (GoPg.Remove p ctx id v)
       = Return (envelope ErrEntityNotFound None (NamespaceFromContext ctx)))
  ∧ (GoPg.factoryFn p = None →
     GoPg.Remove p ctx id v
     = (Return (envelope ErrModelNotSet None (NamespaceFromContext ctx)), v))
  ∧ (∀ tb, conn rw !! Sqlx.TableName (Sqlx.config r) = Some tb →
           tb !! id = None →
           fst (Sqlx.Remove r ctx id rw)
           = Return (envelope ErrEntityNotFound None (NamespaceFromContext ctx)))
  ∧ (fst (Sqlx.Remove r ctx id rw) = Return None →
     fst (Sqlx.Remove r ctx' id (snd (Sqlx.Remove r ctx id rw)))
     = Return (envelope ErrEntityNotFound None (NamespaceFromContext ctx')))
  ∧ (GoPg.factoryFn p = Some f →
     GoPgRef.rows (conn rv) !! id = None →
     fst (GoPg.Remove p ctx id rv)
     = Return (envelope ErrEntityNotFound None (NamespaceFromContext ctx)))
  ∧ (fst (GoPg.Remove p ctx id rv) = Return None →
     fst (GoPg.Remove p ctx' id (snd (GoPg.Remove p ctx id rv)))
     = Return (envelope ErrEntityNotFound None (NamespaceFromContext ctx'))).
Proof.
  split; [apply Sqlx_Remove_success|].
  split; [intros; by eapply Sqlx_Remove_error|]. split.
  { intros res n err Hreply Hn Hne.
    rewrite (Sqlx_Remove_rows r ctx id w res n err) by done.
    by rewrite decide_False. }
  split; [apply GoPg_Remove_success|].
  split; [intros; by eapply GoPg_Remove_error|]. split.
  { intros Hf res Hreply Hne.
    rewrite (GoPg_Remove_rows p f ctx id v res) by done.
    by rewrite decide_False. }
  split; [apply GoPg_Remove_unset|].
  split; [apply SqlxRef_Remove_absent|].
  split; [apply SqlxRef_Remove_twice|].
  split; [apply GoPgRef_Remove_absent|apply GoPgRef_Remove_twice].
Qed.

(** *** Save and the rows the write reports *)

(** The sqlx repository returns [nil] exactly when the statement ran
    without error and its result reports one row and no error; every
    other reply of the client gives the envelope of kind
    [ErrCouldNotSaveEntity] around the error, if there is one. *)
Lemma Sqlx_Save_rows r ctx e w :
  EntityID e ≠ uuid_Nil →
  ∃ q arg,
    Sqlx.table_of q = Sqlx.TableName (Sqlx.config r)
    ∧ (fst (Sqlx.Save r ctx e w) = Return None
       ↔ ∃ res, (Sqlx.NamedExecContext (conn w) q arg).2 = (Some res, None)
                ∧ Sqlx.RowsAffected res = (1%Z, None))
    ∧ (∀ res c,
         (Sqlx.NamedExecContext (conn w) q arg).2 = (res, Some c) →
         fst (Sqlx.Save r ctx e w)
         = Return (envelope ErrCouldNotSaveEntity (Some (Driver c))
                     (NamespaceFromContext ctx)))
    ∧ (∀ res n err,
         (Sqlx.NamedExecContext (conn w) q arg).2 = (Some res, None) →
         Sqlx.RowsAffected res = (n, err) →
         n ≠ 1%Z ∨ err ≠ None →
         fst (Sqlx.Save r ctx e w)
         = Return (envelope ErrCouldNotSaveEntity (driver_error err)
                     (NamespaceFromContext ctx))).
Proof.
  intros Hid. unfold Sqlx.Save. rewrite decide_False by done.
  rewrite saveLoop_map_to_list.
  exists (Sqlx.Upsert (Sqlx.TableName (Sqlx.config r))
            (map_to_list (FieldMap e)).*1
            ((λ f, (f, f)) <$> (map_to_list (FieldMap e)).*1)), (FieldMap e).
  split; [reflexivity|]. run.
  destruct (Sqlx.NamedExecContext _ _ _) as [s [[[[n err]]|] [c|]]]; simpl.
  - split; [split; [by intros [=]|by intros (? & ? & _); simplify_eq]|].
    split; [intros; by simplify_eq|by intros ? ? ? [=]].
  - split; [|split; [by intros ? ? [=]|]].
    + split.
      * repeat case_bool_decide; simpl; try (by intros [=]). intros _.
        destruct err; [done|]. subst n. by eexists.
      * intros (res & Hres & Hn). simplify_eq. simpl in Hn. by simplify_eq.
    + intros res n' err' Hres Hn Hne. simplify_eq. simpl in Hn. simplify_eq.
      repeat case_bool_decide; simpl; try done. destruct Hne; congruence.
  - split; [split; [by intros [=]|by intros (? & ? & _); simplify_eq]|].
    split; [intros; by simplify_eq|by intros ? ? ? [=]].
  - split; [split; [by intros [=]|by intros (? & ? & _); simplify_eq]|].
    split; [by intros ? ? [=]|by intros ? ? ? [=]].
Qed.

End outcomes.

(** ** The table of the sqlx repository *)

Lemma string_length_app (s1 s2 : string) :
  String.length (s1 +:+ s2) = String.length s1 + String.length s2.
Proof. induction s1 as [|a s1 IH]; simpl; [done|]. by rewrite IH. Qed.

(** A table name is not that name with a namespace appended. *)
Lemma TableName_not_suffixed (t ns : string) : t ≠ t +:+ "_" +:+ ns.
Proof.
  intros Heq. apply (f_equal String.length) in Heq.
  rewrite !string_length_app in Heq. simpl in Heq. lia.
Qed.

Section table.
Import Sqlx Ops.
Context {St E : Type} `{!Entity E, !Reflect E, !Client St E}.

Implicit Types (r : Repo E) (ctx : Context) (w : World St Call) (op : Op E).

Ltac replies :=
  repeat match goal with
    | |- context [GetContext ?s ?d ?q ?i] =>
        destruct (GetContext s d q i) as [? [? [?|]]]; simpl
    | |- context [QueryxContext ?s ?q] =>
        destruct (QueryxContext s q) as [? [[?|] [?|]]]; simpl
    | |- context [NamedExecContext ?s ?q ?a] =>
        destruct (NamedExecContext s q a) as [? [[[[? ?]]|] [?|]]]; simpl
    | |- context [ExecContext ?s ?q ?i] =>
        destruct (ExecContext s q i) as [? [[[[? ?]]|] [?|]]]; simpl
    | |- context [BeginTx ?s] => destruct (BeginTx s) as [? [?|]]; simpl
    | |- context [TxExec ?s ?q] => destruct (TxExec s q) as [? [?|]]; simpl
    | |- context [Commit ?s] => destruct (Commit s) as [? [?|]]; simpl
    | |- context [scanRows ?f ?l ?e ?a] => destruct (scanRows f l e a); simpl
    | |- context [bool_decide ?P] => destruct (bool_decide P); simpl
    end.

Ltac called :=
  rewrite <-?app_assoc; eexists; (split; [reflexivity|]); simpl;
  repeat (constructor; [intros ? ?; by simplify_eq/=|]);
  constructor.

(** The calls of one operation: each is on the configured table. *)
Lemma run_calls r ctx op w :
  ∃ new, calls (run r ctx op w).2 = calls w ++ new
         ∧ Forall (on_table (TableName (config r))) new.
Proof.
  destruct op; unfold run; run.
  - unfold Find. destruct (factoryFn r); run.
    + replies; called.
    + exists []. by rewrite app_nil_r.
  - unfold FindAll. destruct (factoryFn r); run.
    + replies; called.
    + exists []. by rewrite app_nil_r.
  - unfold FindWithFilter. destruct (factoryFn r); run;
      exists []; by rewrite app_nil_r.
  - unfold FindWithFilterUsingIndex. destruct (factoryFn r); run;
      exists []; by rewrite app_nil_r.
  - unfold Save. case_decide; run.
    + exists []. by rewrite app_nil_r.
    + rewrite saveLoop_map_to_list. run. replies; called.
  - unfold Remove. run. replies; called.
  - unfold Clear. run. replies; called.
Qed.

(** The namespace of the context reaches the envelope and nothing
    else: the world after the operation and what it returns are the same
    under any two contexts, up to the namespace of the envelope. *)
Lemma run_namespace r ctx ctx' op w :
  (run r ctx' op w).2 = (run r ctx op w).2
  ∧ (run r ctx' op w).1
    = reply_in_namespace (NamespaceFromContext ctx') (run r ctx op w).1.
Proof.
  destruct op; unfold run; run.
  - unfold Find. destruct (factoryFn r); run; replies; done.
  - unfold FindAll. destruct (factoryFn r); run; replies; done.
  - unfold FindWithFilter. destruct (factoryFn r); run; done.
  - unfold FindWithFilterUsingIndex. destruct (factoryFn r); run; done.
  - unfold Save. case_decide; run; [done|].
    rewrite saveLoop_map_to_list. run. replies; done.
  - unfold Remove. run. replies; done.
  - unfold Clear. run. replies; done.
Qed.

Lemma run_all_calls r (ops : list (Context * Op E)) w :
  ∃ new, calls (run_all r ops w) = calls w ++ new
         ∧ Forall (on_table (TableName (config r))) new.
Proof.
  revert w. induction ops as [|[ctx op] ops IH]; intros w; simpl.
  - exists []. by rewrite app_nil_r.
  - destruct (run_calls r ctx op w) as (new1 & Hnew1 & Hall1).
    destruct (IH (run r ctx op w).2) as (new2 & Hnew2 & Hall2).
    exists (new1 ++ new2). split.
    + by rewrite Hnew2, Hnew1, app_assoc.
    + by apply Forall_app.
Qed.

(** Every error of the sqlx repository is an envelope under the namespace
    of the context, but for the scan error that [FindAll] returns as it
    is. *)
Lemma run_errors r ctx op w reply err :
  (run r ctx op w).1 = Return reply →
  reply_err reply = Some err →
  (∃ k base, Some err = envelope k base (NamespaceFromContext ctx))
  ∨ (op = OpFindAll ∧ ∃ c, err = Bare (Driver c)).
Proof.
  destruct op; unfold run; run.
  - unfold Find. destruct (factoryFn r); run; replies;
      intros [= <-] [= <-]; left; by eexists _, _.
  - unfold FindAll. destruct (factoryFn r); run; replies;
      intros [= <-] [= <-]; try (left; by eexists _, _); right; by eauto.
  - unfold FindWithFilter. destruct (factoryFn r); run;
      intros [= <-] [= <-]; left; by eexists _, _.
  - unfold FindWithFilterUsingIndex. destruct (factoryFn r); run;
      intros [= <-] [= <-]; left; by eexists _, _.
  - unfold Save. case_decide; run.
    + intros [= <-] [= <-]; left; by eexists _, _.
    + rewrite saveLoop_map_to_list. run. replies;
        intros [= <-] [= <-] || intros [=]; left; by eexists _, _.
  - unfold Remove. run. replies;
      intros [= <-] [= <-] || intros [=]; left; by eexists _, _.
  - unfold Clear. run. replies;
      intros [= <-] [= <-] || intros [=]; left; by eexists _, _.
Qed.

(** C7: the sqlx repository, on any client.  Through any sequence of
    [Find], [FindAll], [FindWithFilter], [FindWithFilterUsingIndex],
    [Save], [Remove] and [Clear], each under a context of its own, every
    statement sent is formatted with the configured [TableName], which
    is never the name [dbName] builds for a namespace; the repository a
    constructor returns keeps the [TableName] it was given, and setting
    the factory keeps the configuration.  Under two contexts an
    operation makes the same calls, leaves the same state and returns
    the same, up to the namespace written in the envelope. *)
Theorem queries_on_TableName r (ops : list (Context * Op E)) w :
  (∃ new, calls (run_all r ops w) = calls w ++ new
          ∧ Forall (λ c, ∀ q, stmt_of c = Some q →
                       table_of q = TableName (config r)
                       ∧ ∀ ctx, table_of q
                                ≠ TableName (config r) +:+ "_"
                                  +:+ NamespaceFromContext ctx) new)
  ∧ (∀ cfg cl,
       ∃ r' : Repo E,
         NewRepoWithClient cfg (Some cl) = (Some r', None)
         ∧ TableName (config r') = TableName cfg
         ∧ dbName (config r')
           = Some (λ ctx, TableName cfg +:+ "_" +:+ NamespaceFromContext ctx))
  ∧ (∀ f, config (SetEntityFactory r f) = config r)
  ∧ (∀ ctx ctx' op w',
       (run r ctx' op w').2 = (run r ctx op w').2
       ∧ (run r ctx' op w').1
         = reply_in_namespace (NamespaceFromContext ctx') (run r ctx op w').1).
Proof.
  split; [|split; [|split]].
  - destruct (run_all_calls r ops w) as (new & Hnew & Hall).
    exists new. split; [done|].
    eapply Forall_impl; [exact Hall|]. intros c Hc q Hq.
    rewrite (Hc q Hq). split; [done|]. intros ctx. apply TableName_not_suffixed.
  - intros cfg cl. by eexists.
  - done.
  - intros. apply run_namespace.
Qed.

End table.

(** ** The factory *)

Section factory.
Context {St St' E : Type}.
Context `{!Entity E, !Reflect E, !Sqlx.Client St E, !GoPg.Client St' E}.

Implicit Types (r : Sqlx.Repo E) (p : GoPg.Repo E) (ctx : Context) (e : E)
  (w : World St Sqlx.Call) (v : World St' (GoPg.Call E)).

(** C8, as the code has it: before a factory is set, [Find], [FindAll],
    [FindWithFilter] and [FindWithFilterUsingIndex] of either repository,
    and [Remove] of the go-pg repository, return the envelope of kind
    [ErrModelNotSet] and leave the world as it was, so no call reaches
    the client.  [Save] and [Remove] of the sqlx repository do not read
    the factory: two repositories with the same configuration do the
    same, whatever their factories. *)
Theorem factory_needed r r' p ctx id expr e w v :
  Sqlx.factoryFn r = None →
  GoPg.factoryFn p = None →
  Sqlx.config r' = Sqlx.config r →
  Sqlx.Find r ctx id w
  = (Return (None, envelope ErrModelNotSet None (NamespaceFromContext ctx)), w)
  ∧ Sqlx.FindAll r ctx w
    = (Return ([], envelope ErrModelNotSet None (NamespaceFromContext ctx)), w)
  ∧ Sqlx.FindWithFilter r ctx expr w
    = (Return ([], envelope ErrModelNotSet None (NamespaceFromContext ctx)), w)
  ∧ Sqlx.FindWithFilterUsingIndex r ctx expr w
    = (Return ([], envelope ErrModelNotSet None (NamespaceFromContext ctx)), w)
  ∧ GoPg.Find p ctx id v
    = (Return (None, envelope ErrModelNotSet None (NamespaceFromContext ctx)), v)
  ∧ GoPg.FindAll p ctx v
    = (Return ([], envelope ErrModelNotSet None (NamespaceFromContext ctx)), v)
  ∧ GoPg.FindWithFilter p ctx expr v
    = (Return ([], envelope ErrModelNotSet None (NamespaceFromContext ctx)), v)
  ∧ GoPg.FindWithFilterUsingIndex p ctx expr v
    = (Return ([], envelope ErrModelNotSet None (NamespaceFromContext ctx)), v)
  ∧ GoPg.Remove p ctx id v
    = (Return (envelope ErrModelNotSet None (NamespaceFromContext ctx)), v)
  ∧ Sqlx.Save r' ctx e w = Sqlx.Save r ctx e w
  ∧ Sqlx.Remove r' ctx id w = Sqlx.Remove r ctx id w.
Proof.
  intros Hr Hp Hcfg.
  unfold Sqlx.Find, Sqlx.FindAll, Sqlx.FindWithFilter,
    Sqlx.FindWithFilterUsingIndex, GoPg.Find, GoPg.FindAll,
    GoPg.FindWithFilter, GoPg.FindWithFilterUsingIndex, GoPg.Remove,
    Sqlx.Save, Sqlx.Remove.
  rewrite Hr, Hp, Hcfg. repeat split; done.
Qed.

(** What the callback of [FindAll] collects. *)
Lemma forEach_Given (xs : list GoPg.X) (result : list (GoPg.entity E)) :
  GoPg.forEach xs result = (result ++ (GoPg.Given <$> xs), None).
Proof.
  revert result. induction xs as [|x xs IH]; intros result; simpl.
  - by rewrite app_nil_r.
  - by rewrite IH, <-app_assoc.
Qed.

(** On any client, no entity that [FindAll] of the go-pg repository
    returns was made by the factory. *)
Lemma GoPg_FindAll_Given p ctx v result err :
  fst (GoPg.FindAll p ctx v) = Return (result, err) →
  Forall (λ x, ∃ c, x = GoPg.Given c) result.
Proof.
  unfold GoPg.FindAll. destruct (GoPg.factoryFn p) as [f|]; run.
  - destruct (GoPg.ForEach _ _) as [s [xs [c|]]]; simpl;
      rewrite forEach_Given; simpl; intros [= <- <-]; [constructor|].
    apply Forall_fmap, Forall_forall. intros x _. by eexists.
  - intros [= <- <-]. constructor.
Qed.

(** On any client, once the row of the identifier is not the one the
    factory's entity was filled with, [Save] of the go-pg repository
    returns [nil] whenever [Insert] returns no error, whatever result
    comes with it. *)
Lemma GoPg_Save_insert p f ctx e v res :
  EntityID e ≠ uuid_Nil →
  GoPg.factoryFn p = Some f →
  EntityID (GoPg.Select (conn v) (f ()) (EntityID e)).2.1 ≠ EntityID e →
  (GoPg.Insert (GoPg.Select (conn v) (f ()) (EntityID e)).1 e).2 = (res, None) →
  fst (GoPg.Save p ctx e v) = Return None.
Proof.
  intros Hid Hf Hsel Hins. unfold GoPg.Save.
  rewrite decide_False, Hf by done. run.
  destruct (GoPg.Select _ _ _) as [s [d serr]]. simpl in *.
  rewrite decide_False by done.
  destruct (GoPg.Insert _ _) as [s' [res' err]]. simpl in *.
  by injection Hins as -> ->.
Qed.

End factory.

(** ** The constructors *)

(** C10: [NewRepoWithClient] of either repository, given no client,
    returns no repository and [ErrNoDBClient] itself, outside any
    envelope and so without a namespace; given a client, it returns a
    repository that holds it, with the configuration it was given, and
    no error. *)
Theorem NewRepoWithClient_outcomes (E : Type) (cfg : Sqlx.Config)
    (pcfg : GoPg.Config) :
  @Sqlx.NewRepoWithClient E cfg None = (None, Some (Bare (New ErrNoDBClient)))
  ∧ @GoPg.NewRepoWithClient E pcfg None = (None, Some (Bare (New ErrNoDBClient)))
  ∧ (∀ cl, ∃ r : Sqlx.Repo E,
       Sqlx.NewRepoWithClient cfg (Some cl) = (Some r, None)
       ∧ Sqlx.client r = cl
       ∧ Sqlx.TableName (Sqlx.config r) = Sqlx.TableName cfg
       ∧ Sqlx.factoryFn r = None)
  ∧ (∀ cl, ∃ p : GoPg.Repo E,
       GoPg.NewRepoWithClient pcfg (Some cl) = (Some p, None)
       ∧ GoPg.client p = cl
       ∧ GoPg.config p = pcfg
       ∧ GoPg.factoryFn p = None).
Proof.
  split; [done|]. split; [done|].
  split; intros cl; by eexists.
Qed.

(** ** The acceptance test, step by step *)

(** C3: the go-pg repository, on a relation whose trigger skips the
    inserted row.  [entity1] has a non-zero identifier and no row; the
    insert returns no error and a result that reports no row; [Save]
    returns [nil], and nothing was stored. *)
Theorem GoPg_Save_insert_unchecked :
  EntityID Example.entity1 ≠ uuid_Nil
  ∧ (GoPg.Insert (conn (Example.pg_world ∅ true)) Example.entity1).2
    = (Some {| GoPg.RowsAffected := 0 |}, None)
  ∧ GoPg.Save Example.pg Example.ctx Example.entity1 (Example.pg_world ∅ true)
    = (Return None,
       {| conn := conn (Example.pg_world ∅ true);
          calls := [GoPg.SelectCall mocks.zero 1; GoPg.InsertCall Example.entity1] |}).
Proof. split; [done|]. split; vm_compute; reflexivity. Qed.

(** C6: the go-pg repository with its factory set, after [entity1] was
    saved into an empty relation: [FindAll] returns one value of [X],
    the one the callback was given, and not an entity of the factory. *)
Theorem GoPg_FindAll_returns_X :
  GoPg.factoryFn Example.pg = Some Example.factory
  ∧ fst (GoPg.Save Example.pg Example.ctx Example.entity1
           (Example.pg_world ∅ false)) = Return None
  ∧ fst (GoPg.FindAll Example.pg Example.ctx
           (snd (GoPg.Save Example.pg Example.ctx Example.entity1
                   (Example.pg_world ∅ false))))
    = Return ([GoPg.Given {| GoPg.X_Model := Example.entity1 |}], None).
Proof. split; [done|]. split; vm_compute; reflexivity. Qed.

(** C9: the sqlx repository with its factory set, on a relation with a
    row whose [content] is NULL: [FindAll] returns the error of the scan
    as it is, outside any envelope and without the namespace of the
    context. *)
Theorem Sqlx_FindAll_bare_scan_error :
  fst (Sqlx.FindAll Example.r Example.customNamespaceCtx
         (Example.world {[ 3%N := Example.null_content ]}))
  = Return ([], Some (Bare (Driver "sql: Scan error: unsupported Scan"))).
Proof. vm_compute. reflexivity. Qed.

(** Against C8 as it is written: the sqlx repository before
    [SetEntityFactory]; [Save] of [entity1] returns [nil] after one call
    to the client, which stored the row. *)
Lemma Sqlx_Save_without_factory :
  Sqlx.factoryFn Example.unset = None
  ∧ fst (Sqlx.Save Example.unset Example.ctx Example.entity1 (Example.world ∅))
    = Return None
  ∧ length (calls (snd (Sqlx.Save Example.unset Example.ctx Example.entity1
                          (Example.world ∅)))) = 1
  ∧ conn (snd (Sqlx.Save Example.unset Example.ctx Example.entity1
                 (Example.world ∅)))
    = {[ "models" := {[ 1%N := FieldMap Example.entity1 ]} ]}.
Proof. split; [done|]. repeat split; vm_compute; reflexivity. Qed.

(** Against C1 as it is written, for every prior state of the table and
    with nothing said of the factory.  On a relation whose stored row
    has a column the entity does not map, [Save] of [entity1Alt] returns
    [nil] and sets the mapped columns only: the other column stays in
    the row, and [Find] of the identifier returns no entity but the
    envelope around the error of the scan.  And before
    [SetEntityFactory], [Save] of [entity1] returns [nil] and [Find] of
    its identifier returns the envelope of kind [ErrModelNotSet]. *)
Lemma Save_then_Find_not_in_every_state :
  (fst (Sqlx.Save Example.r Example.ctx Example.entity1Alt
          (Example.world
             {[ 1%N := <["extra" := VInt 7]> (FieldMap Example.entity1) ]}))
   = Return None
   ∧ conn (snd (Sqlx.Save Example.r Example.ctx Example.entity1Alt
                  (Example.world
                     {[ 1%N := <["extra" := VInt 7]>
                                 (FieldMap Example.entity1) ]})))
     = {[ "models" := {[ 1%N := <["extra" := VInt 7]>
                                  (FieldMap Example.entity1Alt) ]} ]}
   ∧ fst (Sqlx.Find Example.r Example.ctx 1
            (snd (Sqlx.Save Example.r Example.ctx Example.entity1Alt
                    (Example.world
                       {[ 1%N := <["extra" := VInt 7]>
                                   (FieldMap Example.entity1) ]}))))
     = Return (None, envelope ErrEntityNotFound
                       (Some (Driver "missing destination name")) "default"))
  ∧ (fst (Sqlx.Save Example.unset Example.ctx Example.entity1
            (Example.world ∅))
     = Return None
     ∧ fst (Sqlx.Find Example.unset Example.ctx 1
              (snd (Sqlx.Save Example.unset Example.ctx Example.entity1
                      (Example.world ∅))))
       = Return (None, envelope ErrModelNotSet None "default")).
Proof. repeat split; vm_compute; reflexivity. Qed.

(** ** FindAll of the sqlx repository on the reference client *)

Section sqlx_FindAll.
Import Sqlx.
Context {E : Type} `{!Entity E, !Reflect E}.

Implicit Types (r : Repo E) (ctx : Context)
  (w : World (gmap string (gmap N (gmap string Value))) Call).

Lemma scanRows_all (f : unit → E) (rows : list (gmap string Value))
    (xs result : list E) :
  Forall2 (λ row x, scan row (f ()) = (x, None)) rows xs →
  scanRows f rows (f ()) result = inl (result ++ xs).
Proof.
  intros Hall. revert result.
  induction Hall as [|row x rows xs Hx _ IH]; intros result; simpl.
  - by rewrite app_nil_r.
  - rewrite Hx, IH, <-app_assoc. done.
Qed.

(** One entity of the factory for every row, each filled with its row,
    in the order the relation gives its rows. *)
Lemma SqlxRef_FindAll_rows r f ctx w tb xs :
  factoryFn r = Some f →
  conn w !! TableName (config r) = Some tb →
  Forall2 (λ row x, scan row (f ()) = (x, None)) (map_to_list tb).*2 xs →
  fst (FindAll r ctx w) = Return (xs, None).
Proof.
  intros Hf Htb Hall. unfold FindAll. rewrite Hf. run.
  unfold SqlxRef.ref_QueryxContext. rewrite Htb. simpl.
  by rewrite (scanRows_all f _ xs []).
Qed.

Lemma SqlxRef_FindAll_empty r f ctx w :
  factoryFn r = Some f →
  conn w !! TableName (config r) = Some ∅ →
  fst (FindAll r ctx w) = Return ([], None).
Proof.
  intros Hf Htb. apply (SqlxRef_FindAll_rows r f ctx w ∅); [done..|].
  rewrite map_to_list_empty. constructor.
Qed.

End sqlx_FindAll.

(** The acceptance test on the sqlx repository: after [entity1Alt] and
    [entity2], [FindAll] returns both, in the order of the relation. *)
Example Sqlx_FindAll_two :
  fst (Sqlx.FindAll Example.r Example.ctx
         (snd (Sqlx.Save Example.r Example.ctx Example.entity2
                 (snd (Sqlx.Save Example.r Example.ctx Example.entity1Alt
                         (Example.world ∅))))))
  = Return ([Example.entity2; Example.entity1Alt], None).
Proof. vm_compute. reflexivity. Qed.

(** The statement [Save] sends for a [mocks.Model]. *)
Example Sqlx_Save_query :
  Sqlx.query <$> (last (calls (snd (Sqlx.Save Example.r Example.ctx Example.entity1
                                      (Example.world ∅)))) ≫= Sqlx.stmt_of)
  = Some ("INSERT INTO models (content, created_at, id, version) "
          +:+ "VALUES (:content, :created_at, :id, :version) "
          +:+ "ON CONFLICT (id) DO UPDATE SET content = EXCLUDED.content, "
          +:+ "created_at = EXCLUDED.created_at, id = EXCLUDED.id, "
          +:+ "version = EXCLUDED.version;").
Proof. vm_compute. reflexivity. Qed.

(** ** The theorems at the values of the acceptance test *)

Lemma Save_missing_id_witness :
  Sqlx.Save Example.r Example.ctx Example.entityMissingID (Example.world ∅)
  = (Return (envelope ErrCouldNotSaveEntity (Some (New ErrMissingEntityID))
               "default"), Example.world ∅)
  ∧ GoPg.Save Example.pg Example.ctx Example.entityMissingID
      (Example.pg_world ∅ false)
    = (Return (envelope ErrCouldNotSaveEntity (Some (New ErrMissingEntityID))
                 "default"), Example.pg_world ∅ false).
Proof.
  destruct (Save_missing_id Example.r Example.pg Example.ctx
              Example.entityMissingID (Example.world ∅)
              (Example.pg_world ∅ false)) as (H1 & H2 & _); [reflexivity|].
  exact (conj H1 H2).
Defined.

Lemma Find_outcomes_witness :
  fst (Sqlx.Find Example.unset Example.ctx 1 (Example.world ∅))
  = Return (None, envelope ErrModelNotSet None "default")
  ∧ fst (Sqlx.Find Example.r Example.ctx 1 (Example.world ∅))
    = Return (None, envelope ErrEntityNotFound (Some (Driver SqlxRef.no_rows))
                      "default")
  ∧ fst (Sqlx.Find Example.r Example.ctx 1
           (Example.world {[ 1%N := FieldMap Example.entity1 ]}))
    = Return (Some Example.entity1, None)
  ∧ fst (GoPg.Find Example.pg Example.ctx 1
           (Example.pg_world {[ 1%N := FieldMap Example.entity1 ]} false))
    = Return (Some (GoPg.Made Example.entity1), None).
Proof.
  split; [|split; [|split]].
  - destruct (Find_outcomes Example.unset Example.pg_unset Example.factory
                Example.ctx 1 (Example.world ∅) (Example.pg_world ∅ false)
                (Example.world ∅) (Example.pg_world ∅ false)) as (H & _).
    by rewrite (H eq_refl).
  - destruct (Find_outcomes Example.r Example.pg Example.factory
                Example.ctx 1 (Example.world ∅) (Example.pg_world ∅ false)
                (Example.world ∅) (Example.pg_world ∅ false))
      as (_ & _ & H & _).
    apply (H eq_refl mocks.zero). vm_compute. reflexivity.
  - destruct (Find_outcomes Example.r Example.pg Example.factory
                Example.ctx 1 (Example.world ∅) (Example.pg_world ∅ false)
                (Example.world {[ 1%N := FieldMap Example.entity1 ]})
                (Example.pg_world {[ 1%N := FieldMap Example.entity1 ]} false))
      as (_ & _ & _ & _ & _ & _ & H & _).
    specialize (H eq_refl {[ 1%N := FieldMap Example.entity1 ]} eq_refl).
    simpl in H. rewrite lookup_singleton_eq in H. apply H.
    vm_compute. reflexivity.
  - destruct (Find_outcomes Example.r Example.pg Example.factory
                Example.ctx 1 (Example.world ∅) (Example.pg_world ∅ false)
                (Example.world ∅)
                (Example.pg_world {[ 1%N := FieldMap Example.entity1 ]} false))
      as (_ & _ & _ & _ & _ & _ & _ & H).
    specialize (H eq_refl). simpl in H. rewrite lookup_singleton_eq in H.
    apply H. vm_compute. reflexivity.
Defined.

Lemma Remove_outcomes_witness :
  fst (Sqlx.Remove Example.r Example.ctx 1
         (Example.world {[ 1%N := FieldMap Example.entity1 ]})) = Return None
  ∧ fst (Sqlx.Remove Example.r Example.customNamespaceCtx 1
           (snd (Sqlx.Remove Example.r Example.ctx 1
                   (Example.world {[ 1%N := FieldMap Example.entity1 ]}))))
    = Return (envelope ErrEntityNotFound None "ns")
  ∧ fst (GoPg.Remove Example.pg Example.customNamespaceCtx 1
           (snd (GoPg.Remove Example.pg Example.ctx 1
                   (Example.pg_world {[ 1%N := FieldMap Example.entity1 ]} false))))
    = Return (envelope ErrEntityNotFound None "ns").
Proof.
  destruct (Remove_outcomes Example.r Example.pg Example.factory Example.ctx
              Example.customNamespaceCtx 1
              (Example.world {[ 1%N := FieldMap Example.entity1 ]})
              (Example.pg_world {[ 1%N := FieldMap Example.entity1 ]} false)
              (Example.world {[ 1%N := FieldMap Example.entity1 ]})
              (Example.pg_world {[ 1%N := FieldMap Example.entity1 ]} false))
    as (H1 & _ & _ & _ & _ & _ & _ & _ & H9 & _ & H11).
  split; [|split].
  - apply H1. eexists _, _. split; vm_compute; reflexivity.
  - apply H9. vm_compute. reflexivity.
  - apply H11. vm_compute. reflexivity.
Defined.

Lemma queries_on_TableName_witness :
  Forall (Ops.on_table "models")
    (calls (Ops.run_all Example.r
              [(Example.ctx, Ops.OpSave Example.entity1);
               (Example.customNamespaceCtx, Ops.OpFind 1);
               (Example.customNamespaceCtx, Ops.OpClear)]
              (Example.world ∅))).
Proof.
  destruct (queries_on_TableName Example.r
              [(Example.ctx, Ops.OpSave Example.entity1);
               (Example.customNamespaceCtx, Ops.OpFind 1);
               (Example.customNamespaceCtx, Ops.OpClear)]
              (Example.world ∅)) as ((new & Hnew & Hall) & _).
  rewrite Hnew. simpl. eapply Forall_impl; [exact Hall|].
  intros c Hc q Hq. by destruct (Hc q Hq).
Defined.

Lemma factory_needed_witness :
  Sqlx.FindAll Example.unset Example.ctx (Example.world ∅)
  = (Return ([], envelope ErrModelNotSet None "default"), Example.world ∅)
  ∧ GoPg.Remove Example.pg_unset Example.ctx 1 (Example.pg_world ∅ false)
    = (Return (envelope ErrModelNotSet None "default"), Example.pg_world ∅ false)
  ∧ Sqlx.Save Example.r Example.ctx Example.entity1 (Example.world ∅)
    = Sqlx.Save Example.unset Example.ctx Example.entity1 (Example.world ∅).
Proof.
  destruct (factory_needed Example.unset Example.r Example.pg_unset Example.ctx
              1 "" Example.entity1 (Example.world ∅) (Example.pg_world ∅ false)
              eq_refl eq_refl eq_refl)
    as (_ & H2 & _ & _ & _ & _ & _ & _ & H9 & H10 & _).
  exact (conj H2 (conj H9 H10)).
Defined.

(** * The rest of the package *)

(** ** The sqlx repository as a map of entities *)

Lemma Model_same_columns (e e' : mocks.Model) :
  dom (FieldMap e) = dom (FieldMap e').
Proof. simpl. unfold mocks.Model_FieldMap. by rewrite !dom_insert_L. Qed.

Section sqlx_refinement.
Import Sqlx.
Context {E : Type} `{!Entity E, !Reflect E, !ReflectLaws E}.
Hypothesis same_columns : ∀ e e' : E, dom (FieldMap e) = dom (FieldMap e').

Implicit Types (r : Repo E) (ctx : Context) (e : E) (ents : gmap N E)
  (w : World (gmap string (gmap N (gmap string Value))) Call).

Lemma holds_schema_fits w t ents e :
  holds (conn w) t ents → schema_fits (conn w) t e.
Proof.
  intros Hw tb Htb k row Hrow. unfold holds in Hw. rewrite Hw in Htb.
  injection Htb as <-. rewrite lookup_fmap in Hrow.
  destruct (ents !! k) as [e'|]; [|done]. injection Hrow as <-.
  by rewrite (same_columns e' e).
Qed.

Lemma scan_all_FieldMap (f : unit → E) (xs : list E) :
  Forall2 (λ row x, scan row (f ()) = (x, None)) (FieldMap <$> xs) xs.
Proof.
  induction xs as [|x xs IH]; simpl; constructor; [apply scan_FieldMap|done].
Qed.

Lemma Save_sim r ctx e w ents :
  EntityID e ≠ uuid_Nil →
  holds (conn w) (TableName (config r)) ents →
  ∃ w', Save r ctx e w = (Return None, w')
        ∧ holds (conn w') (TableName (config r)) (<[EntityID e := e]> ents)
        ∧ (∀ t, t ≠ TableName (config r) → conn w' !! t = conn w !! t)
        ∧ length (calls w') = S (length (calls w)).
Proof.
  intros Hid Hw.
  destruct (Save_stores r ctx e w (FieldMap <$> ents) Hid Hw
              (holds_schema_fits w _ ents e Hw)) as (q & -> & _).
  eexists. split; [done|]. simpl. split; [|split].
  - unfold holds. by rewrite lookup_insert_eq, fmap_insert.
  - intros t Ht. by rewrite lookup_insert_ne.
  - rewrite length_app. simpl. lia.
Qed.

Lemma Find_sim r f ctx id w ents :
  factoryFn r = Some f →
  holds (conn w) (TableName (config r)) ents →
  ∃ w', Find r ctx id w
        = (Return (match ents !! id with
                   | Some e => (Some e, None)
                   | None => (None, envelope ErrEntityNotFound
                                      (Some (Driver SqlxRef.no_rows))
                                      (NamespaceFromContext ctx))
                   end), w')
        ∧ conn w' = conn w.
Proof.
  intros Hf Hw. unfold Find. rewrite Hf. run. unfold SqlxRef.ref_GetContext.
  rewrite Hw, lookup_fmap. destruct (ents !! id) as [e|]; simpl.
  - rewrite scan_FieldMap. by eexists.
  - by eexists.
Qed.

Lemma FindAll_sim r f ctx w ents :
  factoryFn r = Some f →
  holds (conn w) (TableName (config r)) ents →
  ∃ w', FindAll r ctx w = (Return ((map_to_list ents).*2, None), w')
        ∧ conn w' = conn w.
Proof.
  intros Hf Hw. unfold FindAll. rewrite Hf. run.
  unfold SqlxRef.ref_QueryxContext. rewrite Hw. simpl.
  rewrite map_to_list_fmap.
  assert (∀ l : list (N * E),
            (prod_map id FieldMap <$> l).*2 = FieldMap <$> l.*2) as ->.
  { induction l as [|[k x] l IH]; [done|]. rewrite !fmap_cons. by f_equal. }
  rewrite (scanRows_all f _ (map_to_list ents).*2 []) by apply scan_all_FieldMap.
  by eexists.
Qed.

Lemma Remove_sim r ctx id w ents :
  holds (conn w) (TableName (config r)) ents →
  ∃ w', Remove r ctx id w
        = (Return (match ents !! id with
                   | Some _ => None
                   | None => envelope ErrEntityNotFound None
                               (NamespaceFromContext ctx)
                   end), w')
        ∧ holds (conn w') (TableName (config r)) (delete id ents)
        ∧ (∀ t, t ≠ TableName (config r) → conn w' !! t = conn w !! t).
Proof.
  intros Hw. unfold Remove. run. unfold SqlxRef.ref_ExecContext.
  rewrite Hw, lookup_fmap. destruct (ents !! id) as [e|] eqn:Hid; simpl.
  - eexists. split; [done|]. simpl. split.
    + unfold holds. by rewrite lookup_insert_eq, fmap_delete.
    + intros t Ht. by rewrite lookup_insert_ne.
  - eexists. split; [done|]. simpl. split; [|done].
    by rewrite delete_id.
Qed.

Lemma Clear_sim r ctx w ents :
  holds (conn w) (TableName (config r)) ents →
  ∃ w', Clear r ctx w = (Return None, w')
        ∧ holds (conn w') (TableName (config r)) ∅
        ∧ (∀ t, t ≠ TableName (config r) → conn w' !! t = conn w !! t).
Proof.
  intros Hw. unfold Clear. run. unfold SqlxRef.ref_TxExec. rewrite Hw. simpl.
  eexists. split; [done|]. simpl. split.
  - unfold holds. by rewrite lookup_insert_eq, fmap_empty.
  - intros t Ht. by rewrite lookup_insert_ne.
Qed.

End sqlx_refinement.

(** ** The acceptance test on the sqlx repository *)

Section acceptance.
Import Sqlx Acceptance.

Implicit Types (r : Repo mocks.Model) (ctx : Context)
  (w : World (gmap string (gmap N (gmap string Value))) Call).

Ltac next H := rewrite H; clear H; lazy beta iota.

Ltac checks :=
  unfold envelope, is_RepoError; cbn [Err BaseErr fmap list_fmap snd length];
  repeat match goal with
    | |- context [bool_decide (?x ≠ ?x)] =>
        rewrite (bool_decide_eq_false_2 (x ≠ x)) by (by intros ?)
    | |- context [bool_decide (?x = ?x)] =>
        rewrite (bool_decide_eq_true_2 (x = x)) by done
    end;
  rewrite ?andb_false_r; cbn [negb andb check].

Lemma two_entities (l : list mocks.Model) (a b : mocks.Model) :
  l ≡ₚ [a; b] → l = [a; b] ∨ l = [b; a].
Proof. intros Hl. symmetry in Hl. by apply Permutation_length_2_inv in Hl. Qed.

Lemma AcceptanceTest_run r f ctx u0 u1 u2 w :
  factoryFn r = Some f →
  holds (conn w) (TableName (config r)) (∅ : gmap N mocks.Model) →
  u1 ≠ uuid_Nil → u2 ≠ uuid_Nil → u1 ≠ u2 →
  ∃ w', AcceptanceTest ctx r u0 u1 u2 w = (Return [], w')
        ∧ holds (conn w') (TableName (config r))
            ({[ u2 := entity2 u2 ]} : gmap N mocks.Model).
Proof.
  intros Hf Hw Hu1 Hu2 Hne.
  unfold AcceptanceTest, mbind, M_bind, bind, mret, M_ret, ret. lazy zeta.
  change (mocks.ID (entity1Alt (entity1 u1))) with u1.
  change (mocks.ID (entity1 u1)) with u1.
  change (mocks.ID (entity2 u2)) with u2.
  assert (EntityID (entity1 u1) ≠ uuid_Nil) as Hid1 by done.
  assert (EntityID (entity1Alt (entity1 u1)) ≠ uuid_Nil) as Hid1Alt by done.
  assert (EntityID (entity2 u2) ≠ uuid_Nil) as Hid2 by done.
  (* Find non-existing item. *)
  destruct (Find_sim r f ctx u0 w ∅ Hf Hw) as (w1 & H & Hc).
  next H. rewrite lookup_empty. lazy beta iota.
  rewrite <-Hc in Hw. clear Hc.
  (* FindAll with no items. *)
  destruct (FindAll_sim r f ctx w1 ∅ Hf Hw) as (w2 & H & Hc).
  next H. rewrite map_to_list_empty. rewrite <-Hc in Hw. clear Hc.
  (* Save model without ID. *)
  rewrite Sqlx_Save_missing_id by done. lazy beta iota.
  (* Save and find one item. *)
  destruct (Save_sim Model_same_columns r ctx (entity1 u1) w2 ∅ Hid1 Hw)
    as (w3 & H & Hw3 & _). clear Hw.
  next H. simpl in Hw3. rewrite insert_empty in Hw3.
  destruct (Find_sim r f ctx u1 w3 _ Hf Hw3) as (w4 & H & Hc).
  rewrite lookup_singleton_eq in H. next H.
  rewrite <-Hc in Hw3. clear Hc.
  (* FindAll with one item. *)
  destruct (FindAll_sim r f ctx w4 _ Hf Hw3) as (w5 & H & Hc).
  next H. rewrite map_to_list_singleton. rewrite <-Hc in Hw3. clear Hc.
  (* Save and overwrite with same ID. *)
  destruct (Save_sim Model_same_columns r ctx (entity1Alt (entity1 u1)) w5 _
              Hid1Alt Hw3) as (w6 & H & Hw6 & _). clear Hw3.
  next H. simpl in Hw6. rewrite insert_singleton_eq in Hw6.
  destruct (Find_sim r f ctx u1 w6 _ Hf Hw6) as (w7 & H & Hc).
  rewrite lookup_singleton_eq in H. next H.
  rewrite <-Hc in Hw6. clear Hc.
  (* Save with another ID. *)
  destruct (Save_sim Model_same_columns r ctx (entity2 u2) w7 _ Hid2 Hw6)
    as (w8 & H & Hw8 & _). clear Hw6.
  next H. simpl in Hw8.
  destruct (Find_sim r f ctx u2 w8 _ Hf Hw8) as (w9 & H & Hc).
  rewrite lookup_insert_eq in H. next H.
  rewrite <-Hc in Hw8. clear Hc.
  (* FindAll with two items. *)
  destruct (FindAll_sim r f ctx w9 _ Hf Hw8) as (w10 & H & Hc).
  next H. rewrite <-Hc in Hw8. clear Hc.
  assert ((map_to_list (<[u2 := entity2 u2]>
             ({[u1 := entity1Alt (entity1 u1)]} : gmap N mocks.Model))).*2
          = [entity1Alt (entity1 u1); entity2 u2]
          ∨ (map_to_list (<[u2 := entity2 u2]>
               ({[u1 := entity1Alt (entity1 u1)]} : gmap N mocks.Model))).*2
            = [entity2 u2; entity1Alt (entity1 u1)]) as Hl.
  { apply two_entities.
    rewrite map_to_list_insert by (by rewrite lookup_singleton_ne).
    rewrite map_to_list_singleton. simpl. apply Permutation_swap. }
  (* Remove item, twice. *)
  destruct (Remove_sim r ctx u1 w10 _ Hw8) as (w11 & H & Hw11 & _).
  rewrite lookup_insert_ne, lookup_singleton_eq in H by done.
  destruct (Find_sim r f ctx u1 w11 _ Hf Hw11) as (w12 & H' & Hc).
  rewrite lookup_delete_eq in H'. rewrite <-Hc in Hw11. clear Hc.
  destruct (Remove_sim r ctx u1 w12 _ Hw11) as (w13 & H'' & Hw13 & _).
  rewrite lookup_delete_eq in H''.
  exists w13. split.
  - destruct Hl as [-> | ->]; next H; next H'; next H''; checks; reflexivity.
  - rewrite delete_delete_eq in Hw13.
    rewrite delete_insert_ne, delete_singleton_eq, insert_empty in Hw13 by done.
    exact Hw13.
Qed.
End acceptance.

Section sqlx_map.
Import Sqlx.
Context {E : Type} `{!Entity E, !Reflect E, !ReflectLaws E}.
Hypothesis same_columns : ∀ e e' : E, dom (FieldMap e) = dom (FieldMap e').

Implicit Types (r : Repo E) (ctx : Context) (e : E) (ents : gmap N E)
  (w : World (gmap string (gmap N (gmap string Value))) Call).

(** X1: on a relation that holds the rows of the entities [ents], [Save]
    of an entity with a non-zero identifier returns [nil] after one call,
    and the relation then holds [ents] with the entity under its
    identifier: its row added or replaced, every other row and every
    other relation as before. *)
Theorem Sqlx_Save_refines r ctx e w ents :
  EntityID e ≠ uuid_Nil →
  holds (conn w) (TableName (config r)) ents →
  ∃ w', Save r ctx e w = (Return None, w')
        ∧ holds (conn w') (TableName (config r)) (<[EntityID e := e]> ents)
        ∧ (∀ t, t ≠ TableName (config r) → conn w' !! t = conn w !! t)
        ∧ length (calls w') = S (length (calls w)).
Proof. by apply Save_sim. Qed.

(** X2: on a relation that holds the rows of [ents], [Find] with the
    factory set returns the entity stored under the identifier, or no
    entity and the envelope of kind [ErrEntityNotFound] around the
    no-rows error when there is none; the database is as before. *)
Theorem Sqlx_Find_refines r f ctx id w ents :
  factoryFn r = Some f →
  holds (conn w) (TableName (config r)) ents →
  ∃ w', Find r ctx id w
        = (Return (match ents !! id with
                   | Some e => (Some e, None)
                   | None => (None, envelope ErrEntityNotFound
                                      (Some (Driver SqlxRef.no_rows))
                                      (NamespaceFromContext ctx))
                   end), w')
        ∧ conn w' = conn w.
Proof. by apply Find_sim. Qed.

(** X3: on a relation that holds the rows of [ents], [FindAll] with the
    factory set returns every entity of [ents] once, in the order of the
    relation, and no error; the database is as before. *)
Theorem Sqlx_FindAll_refines r f ctx w ents :
  factoryFn r = Some f →
  holds (conn w) (TableName (config r)) ents →
  ∃ w', FindAll r ctx w = (Return ((map_to_list ents).*2, None), w')
        ∧ conn w' = conn w.
Proof. by apply FindAll_sim. Qed.

(** X4: on a relation that holds the rows of [ents], [Remove] returns
    [nil] when the identifier has an entity and the envelope of kind
    [ErrEntityNotFound] when it has none; afterwards the relation holds
    [ents] without that identifier, and every other relation is as
    before. *)
Theorem Sqlx_Remove_refines r ctx id w ents :
  holds (conn w) (TableName (config r)) ents →
  ∃ w', Remove r ctx id w
        = (Return (match ents !! id with
                   | Some _ => None
                   | None => envelope ErrEntityNotFound None
                               (NamespaceFromContext ctx)
                   end), w')
        ∧ holds (conn w') (TableName (config r)) (delete id ents)
        ∧ (∀ t, t ≠ TableName (config r) → conn w' !! t = conn w !! t).
Proof. by apply Remove_sim. Qed.

(** X5: on a relation that holds the rows of [ents], [Clear] returns
    [nil] and leaves the relation empty and every other relation as
    before. *)
Theorem Sqlx_Clear_refines r ctx w ents :
  holds (conn w) (TableName (config r)) ents →
  ∃ w', Clear r ctx w = (Return None, w')
        ∧ holds (conn w') (TableName (config r)) ∅
        ∧ (∀ t, t ≠ TableName (config r) → conn w' !! t = conn w !! t).
Proof. by apply Clear_sim. Qed.

End sqlx_map.

(** X15: the acceptance test on the sqlx repository with its factory
    set, over an empty relation of the reference client: whatever the
    three identifiers drawn, as long as the two that are saved are
    non-zero and differ, no check of the test fails, and the relation
    is left with [entity2] alone. *)
Theorem AcceptanceTest_passes (r : Sqlx.Repo mocks.Model)
    (f : unit → mocks.Model) (ctx : Context) (u0 u1 u2 : N)
    (w : World (gmap string (gmap N (gmap string Value))) Sqlx.Call) :
  Sqlx.factoryFn r = Some f →
  holds (conn w) (Sqlx.TableName (Sqlx.config r)) (∅ : gmap N mocks.Model) →
  u1 ≠ uuid_Nil → u2 ≠ uuid_Nil → u1 ≠ u2 →
  ∃ w', Acceptance.AcceptanceTest ctx r u0 u1 u2 w = (Return [], w')
        ∧ holds (conn w') (Sqlx.TableName (Sqlx.config r))
            ({[ u2 := Acceptance.entity2 u2 ]} : gmap N mocks.Model).
Proof. apply AcceptanceTest_run. Qed.

(** The relation [models] of [Example.world] holds what it was built
    from. *)
Lemma Example_world_holds (ents : gmap N mocks.Model) :
  holds (conn (Example.world (FieldMap <$> ents))) "models" ents.
Proof. unfold holds. simpl. apply lookup_singleton_eq. Qed.

Lemma Sqlx_Save_refines_witness :
  ∃ w', Sqlx.Save Example.r Example.ctx Example.entity1Alt
          (Example.world (FieldMap <$> {[ 1%N := Example.entity1 ]}))
        = (Return None, w')
        ∧ holds (conn w') "models"
            (<[1%N := Example.entity1Alt]> {[ 1%N := Example.entity1 ]}).
Proof.
  destruct (Sqlx_Save_refines Model_same_columns Example.r Example.ctx
              Example.entity1Alt
              (Example.world (FieldMap <$> {[ 1%N := Example.entity1 ]}))
              {[ 1%N := Example.entity1 ]})
    as (w' & H1 & H2 & _); [done|apply Example_world_holds|].
  exists w'. exact (conj H1 H2).
Defined.

Lemma Sqlx_Find_refines_witness :
  ∃ w', Sqlx.Find Example.r Example.ctx 1
          (Example.world (FieldMap <$> {[ 1%N := Example.entity1 ]}))
        = (Return (Some Example.entity1, None), w').
Proof.
  destruct (Sqlx_Find_refines Example.r Example.factory Example.ctx 1
              (Example.world (FieldMap <$> {[ 1%N := Example.entity1 ]}))
              {[ 1%N := Example.entity1 ]} eq_refl (Example_world_holds _))
    as (w' & H1 & _).
  exists w'. exact H1.
Defined.

Lemma Sqlx_FindAll_refines_witness :
  ∃ w', Sqlx.FindAll Example.r Example.ctx
          (Example.world (FieldMap <$> {[ 1%N := Example.entity1 ]}))
        = (Return ([Example.entity1], None), w').
Proof.
  destruct (Sqlx_FindAll_refines Example.r Example.factory Example.ctx
              (Example.world (FieldMap <$> {[ 1%N := Example.entity1 ]}))
              {[ 1%N := Example.entity1 ]} eq_refl (Example_world_holds _))
    as (w' & H1 & _).
  exists w'. exact H1.
Defined.

Lemma Sqlx_Remove_refines_witness :
  ∃ w', Sqlx.Remove Example.r Example.ctx 1
          (Example.world (FieldMap <$> {[ 1%N := Example.entity1 ]}))
        = (Return None, w')
        ∧ holds (conn w') "models" (delete 1%N {[ 1%N := Example.entity1 ]}).
Proof.
  destruct (Sqlx_Remove_refines Example.r Example.ctx 1
              (Example.world (FieldMap <$> {[ 1%N := Example.entity1 ]}))
              {[ 1%N := Example.entity1 ]} (Example_world_holds _))
    as (w' & H1 & H2 & _).
  exists w'. exact (conj H1 H2).
Defined.

Lemma Sqlx_Clear_refines_witness :
  ∃ w', Sqlx.Clear Example.r Example.ctx
          (Example.world (FieldMap <$> {[ 1%N := Example.entity1 ]}))
        = (Return None, w')
        ∧ holds (conn w') "models" (∅ : gmap N mocks.Model).
Proof.
  destruct (Sqlx_Clear_refines Example.r Example.ctx
              (Example.world (FieldMap <$> {[ 1%N := Example.entity1 ]}))
              {[ 1%N := Example.entity1 ]} (Example_world_holds _))
    as (w' & H1 & H2 & _).
  exists w'. exact (conj H1 H2).
Defined.

Lemma AcceptanceTest_passes_witness :
  ∃ w', Acceptance.AcceptanceTest Example.ctx Example.r 9 1 2
          (Example.world (FieldMap <$> (∅ : gmap N mocks.Model)))
        = (Return [], w').
Proof.
  destruct (AcceptanceTest_passes Example.r Example.factory Example.ctx 9 1 2
              (Example.world (FieldMap <$> (∅ : gmap N mocks.Model))))
    as (w' & H1 & _); [done|apply Example_world_holds|done..|].
  exists w'. exact H1.
Defined.

(** ** The sqlx repository on any client, continued *)

Section sqlx_calls.
Import Sqlx Ops.
Context {St E : Type} `{!Entity E, !Reflect E, !Client St E}.

Implicit Types (r : Repo E) (ctx : Context) (e : E) (w : World St Call)
  (op : Op E).

Ltac replies :=
  repeat match goal with
    | |- context [GetContext ?s ?d ?q ?i] =>
        destruct (GetContext s d q i) as [? [? [?|]]]; simpl
    | |- context [QueryxContext ?s ?q] =>
        destruct (QueryxContext s q) as [? [[?|] [?|]]]; simpl
    | |- context [NamedExecContext ?s ?q ?a] =>
        destruct (NamedExecContext s q a) as [? [[[[? ?]]|] [?|]]]; simpl
    | |- context [ExecContext ?s ?q ?i] =>
        destruct (ExecContext s q i) as [? [[[[? ?]]|] [?|]]]; simpl
    | |- context [BeginTx ?s] => destruct (BeginTx s) as [? [?|]]; simpl
    | |- context [TxExec ?s ?q] => destruct (TxExec s q) as [? [?|]]; simpl
    | |- context [Commit ?s] => destruct (Commit s) as [? [?|]]; simpl
    | |- context [scanRows ?f ?l ?e ?a] => destruct (scanRows f l e a); simpl
    | |- context [bool_decide ?P] => destruct (bool_decide P); simpl
    end.

(** X6: [Clear] on any client.  A failed begin is a panic after that one
    call; a failed delete is a panic after the two calls, with no commit
    sent; a failed commit is the only error [Clear] returns, the
    envelope of kind [ErrCouldNotClearDB] around it; otherwise [Clear]
    returns [nil] after the three calls. *)
Theorem Sqlx_Clear_outcomes r ctx w :
  let q := DeleteAll (TableName (config r)) in
  let begun := BeginTx (conn w) in
  let deleted := TxExec begun.1 q in
  let committed := Commit deleted.1 in
  (∀ msg, begun.2 = Some msg →
     Clear r ctx w
     = (Panic msg, {| conn := begun.1; calls := calls w ++ [MustBeginTxCall] |}))
  ∧ (begun.2 = None → ∀ msg, deleted.2 = Some msg →
     Clear r ctx w
     = (Panic msg,
        {| conn := deleted.1;
           calls := (calls w ++ [MustBeginTxCall]) ++ [MustExecCall q] |}))
  ∧ (begun.2 = None → deleted.2 = None →
     Clear r ctx w
     = (Return (match committed.2 with
                | Some c => envelope ErrCouldNotClearDB (Some (Driver c))
                              (NamespaceFromContext ctx)
                | None => None
                end),
        {| conn := committed.1;
           calls := ((calls w ++ [MustBeginTxCall]) ++ [MustExecCall q])
                    ++ [CommitCall] |})).
Proof.
  intros q begun deleted committed. subst q begun deleted committed.
  unfold Clear. run.
  destruct (BeginTx (conn w)) as [s1 [m1|]]; simpl.
  { split; [by intros ? [= <-]|]. split; by intros [=]. }
  destruct (TxExec s1 _) as [s2 [m2|]]; simpl.
  { split; [by intros ? [=]|]. split; [by intros _ ? [= <-]|by intros _ [=]]. }
  destruct (Commit s2) as [s3 [c|]]; simpl;
    (split; [by intros ? [=]|]); (split; [by intros _ ? [=]|done]).
Qed.

(** X7: the statement of [Save], on any client.  For an entity with a
    non-zero identifier [Save] makes one call, the upsert on the
    configured table: its columns are the names of the mapped fields of
    the entity, each once; every column has its argument, the arguments
    being the mapped fields; and every column is set from the proposed
    row on conflict. *)
Theorem Sqlx_Save_statement r ctx e w :
  EntityID e ≠ uuid_Nil →
  ∃ mapFields,
    calls (Save r ctx e w).2
    = calls w ++ [NamedExecContextCall
                    (Upsert (TableName (config r)) mapFields
                       ((λ field, (field, field)) <$> mapFields))
                    (FieldMap e)]
    ∧ NoDup mapFields
    ∧ ∀ field, field ∈ mapFields ↔ is_Some (FieldMap e !! field).
Proof.
  intros Hid. exists (map_to_list (FieldMap e)).*1. split; [|split].
  - unfold Save. rewrite decide_False by done.
    rewrite saveLoop_map_to_list. run. replies; done.
  - apply NoDup_fst_map_to_list.
  - intros field. rewrite list_elem_of_fmap. split.
    + intros ([k v] & -> & Hin). apply elem_of_map_to_list in Hin. by eexists.
    + intros [v Hv]. exists (field, v). split; [done|].
      by apply elem_of_map_to_list.
Qed.

(** X8: the rows [Save] asks for, on any client.  For an entity with a
    non-zero identifier, take the reply of the client to the one
    statement [Save] sends: the upsert on the configured table whose
    columns are the mapped fields of the entity, with these fields as
    its arguments.  [Save] returns [nil] exactly when that reply has no
    error and a result that reports one row and no error; an error of
    the upsert, an error of the row count, or any other count gives
    the envelope of kind [ErrCouldNotSaveEntity] around the error at
    hand; a reply with neither result nor error is a nil dereference.
    In every case the upsert is the one call made. *)
Theorem Sqlx_Save_one_row r ctx e w :
  EntityID e ≠ uuid_Nil →
  let mapFields := (map_to_list (FieldMap e)).*1 in
  let q := Upsert (TableName (config r)) mapFields
             ((λ field, (field, field)) <$> mapFields) in
  let reply := (NamedExecContext (conn w) q (FieldMap e)).2 in
  calls (Save r ctx e w).2 = calls w ++ [NamedExecContextCall q (FieldMap e)]
  ∧ (fst (Save r ctx e w) = Return None
     ↔ ∃ res, reply = (Some res, None) ∧ RowsAffected res = (1%Z, None))
  ∧ (∀ res c, reply = (res, Some c) →
       fst (Save r ctx e w)
       = Return (envelope ErrCouldNotSaveEntity (Some (Driver c))
                   (NamespaceFromContext ctx)))
  ∧ (∀ res n err, reply = (Some res, None) →
       RowsAffected res = (n, err) →
       n ≠ 1%Z ∨ err ≠ None →
       fst (Save r ctx e w)
       = Return (envelope ErrCouldNotSaveEntity (driver_error err)
                   (NamespaceFromContext ctx)))
  ∧ (reply = (None, None) → fst (Save r ctx e w) = Panic nil_dereference).
Proof.
  intros Hid mapFields q reply. subst mapFields q reply.
  unfold Save. rewrite decide_False by done.
  rewrite saveLoop_map_to_list. run.
  destruct (NamedExecContext _ _ _) as [s [[[[n err]]|] [c|]]]; simpl.
  - split; [done|].
    split; [split; [by intros [=]|by intros (? & ? & _); simplify_eq]|].
    split; [intros; by simplify_eq|]. split; [by intros ? ? ? [=]|by intros [=]].
  - split; [repeat case_bool_decide; by destruct err|].
    split; [|split; [by intros ? ? [=]|split; [|by intros [=]]]].
    + split.
      * repeat case_bool_decide; simpl; try (by intros [=]). intros _.
        destruct err; [done|]. subst n. by eexists.
      * intros (res & Hres & Hn). simplify_eq. simpl in Hn. by simplify_eq.
    + intros res n' err' Hres Hn Hne. simplify_eq. simpl in Hn. simplify_eq.
      repeat case_bool_decide; simpl; try done. destruct Hne; congruence.
  - split; [done|].
    split; [split; [by intros [=]|by intros (? & ? & _); simplify_eq]|].
    split; [intros; by simplify_eq|]. split; [by intros ? ? ? [=]|by intros [=]].
  - split; [done|].
    split; [split; [by intros [=]|by intros (? & ? & _); simplify_eq]|].
    split; [by intros ? ? [=]|]. split; [by intros ? ? ? [=]|done].
Qed.

(** X9: every error an operation of the sqlx repository returns is an
    envelope under the namespace of the context, but for one: the error
    of scanning a row, which [FindAll] returns as the client gave it. *)
Theorem Sqlx_errors_enveloped r ctx op w reply err :
  (run r ctx op w).1 = Return reply →
  reply_err reply = Some err →
  (∃ k base, Some err = envelope k base (NamespaceFromContext ctx))
  ∨ (op = OpFindAll ∧ ∃ c, err = Bare (Driver c)).
Proof. apply run_errors. Qed.

(** X10: no operation of the sqlx repository tries again.  The filtered
    finds call the client never, [Clear] at most three times, every
    other operation at most once; calls made before are kept. *)
Theorem Sqlx_no_retry r ctx op w :
  ∃ new : list Call,
    calls (run r ctx op w).2 = calls w ++ new
    ∧ (List.length new ≤ match op with
                         | OpFindWithFilter _ | OpFindWithFilterUsingIndex _ => 0
                         | OpClear => 3
                         | _ => 1
                         end)%nat.
Proof.
  destruct op; unfold run; run.
  - unfold Find. destruct (factoryFn r); run.
    + replies; eexists; (split; [reflexivity|]); simpl; lia.
    + exists []. rewrite app_nil_r. simpl. split; [done|lia].
  - unfold FindAll. destruct (factoryFn r); run.
    + replies; eexists; (split; [reflexivity|]); simpl; lia.
    + exists []. rewrite app_nil_r. simpl. split; [done|lia].
  - unfold FindWithFilter. destruct (factoryFn r); run;
      exists []; by rewrite app_nil_r.
  - unfold FindWithFilterUsingIndex. destruct (factoryFn r); run;
      exists []; by rewrite app_nil_r.
  - unfold Save. case_decide; run.
    + exists []. rewrite app_nil_r. simpl. split; [done|lia].
    + rewrite saveLoop_map_to_list. run.
      replies; eexists; (split; [reflexivity|]); simpl; lia.
  - unfold Remove. run.
    replies; eexists; (split; [reflexivity|]); simpl; lia.
  - unfold Clear. run.
    replies; rewrite <-?app_assoc; eexists; (split; [reflexivity|]); simpl; lia.
Qed.

End sqlx_calls.

Lemma Sqlx_Save_statement_witness :
  ∃ mapFields,
    calls (Sqlx.Save Example.r Example.ctx Example.entity1 (Example.world ∅)).2
    = [Sqlx.NamedExecContextCall
         (Sqlx.Upsert "models" mapFields ((λ field, (field, field)) <$> mapFields))
         (FieldMap Example.entity1)]
    ∧ NoDup mapFields.
Proof.
  destruct (Sqlx_Save_statement Example.r Example.ctx Example.entity1
              (Example.world ∅)) as (mapFields & H1 & H2 & _); [done|].
  exists mapFields. exact (conj H1 H2).
Defined.

Lemma Sqlx_Save_one_row_witness :
  calls (Sqlx.Save Example.r Example.ctx Example.entity1
           (Example.world ∅)).2
  = [Sqlx.NamedExecContextCall
       (Sqlx.Upsert "models" (map_to_list (FieldMap Example.entity1)).*1
          ((λ field, (field, field))
             <$> (map_to_list (FieldMap Example.entity1)).*1))
       (FieldMap Example.entity1)]
  ∧ fst (Sqlx.Save Example.r Example.ctx Example.entity1 (Example.world ∅))
    = Return None.
Proof.
  destruct (Sqlx_Save_one_row Example.r Example.ctx Example.entity1
              (Example.world ∅)) as (H1 & H2 & _); [done|].
  split; [exact H1|]. apply H2. eexists. split; vm_compute; reflexivity.
Defined.

Lemma Sqlx_errors_enveloped_witness :
  (∃ k base, Some (Envelope {| Err := Some (New ErrEntityNotFound);
                               BaseErr := Some (Driver SqlxRef.no_rows);
                               Namespace := "ns" |})
             = envelope k base "ns")
  ∨ (@Ops.OpFind mocks.Model 1 = Ops.OpFindAll
     ∧ ∃ c, Envelope {| Err := Some (New ErrEntityNotFound);
                        BaseErr := Some (Driver SqlxRef.no_rows);
                        Namespace := "ns" |} = Bare (Driver c)).
Proof.
  apply (Sqlx_errors_enveloped Example.r Example.customNamespaceCtx
           (Ops.OpFind 1) (Example.world ∅)
           (Ops.One None (envelope ErrEntityNotFound
                            (Some (Driver SqlxRef.no_rows)) "ns"))).
  - vm_compute. reflexivity.
  - reflexivity.
Defined.

Lemma Sqlx_Clear_outcomes_witness :
  fst (Sqlx.Clear Example.r Example.ctx (Example.world ∅)) = Return None.
Proof.
  destruct (Sqlx_Clear_outcomes Example.r Example.ctx (Example.world ∅))
    as (_ & _ & H).
  by rewrite H.
Defined.

(** ** Configuration and dialling *)

Section sqlx_setup.
Import SqlxSetup.
Variable Atoi : string → Z * option string.
Variable Connect : string → string → option Sqlx.DB * option string.

Ltac split_on h s db u pw :=
  destruct (decide (h = "")); simpl;
  (destruct (decide (s = "")); simpl;
   [|let p := fresh "p" in
     destruct (Atoi s) as [p [?|]]; simpl;
     destruct (decide (p = 0%Z)); simpl]);
  destruct (decide (db = "")); simpl;
  destruct (decide (u = "")); simpl;
  destruct (decide (pw = "")); simpl.

Tactic Notation "cases" constr(env) :=
  unfold provideDefaults;
  generalize (Getenv env "POSTGRES_HOST") (Getenv env "POSTGRES_PORT")
    (Getenv env "POSTGRES_DB") (Getenv env "POSTGRES_USER")
    (Getenv env "POSTGRES_PASSWORD");
  let h := fresh "h" in let s := fresh "s" in let db := fresh "db" in
  let u := fresh "u" in let pw := fresh "pw" in
  intros h s db u pw; split_on h s db u pw.

(** When it returns, [provideDefaults] has filled every setting. *)
Lemma provideDefaults_filled (env : gmap string string)
    (given : option DBConfig) (d : DBConfig) :
  provideDefaults Atoi env given = Continues d →
  Host d ≠ "" ∧ Port d ≠ 0%Z ∧ Database d ≠ "" ∧ User d ≠ ""
  ∧ Password d ≠ "".
Proof.
  cases env.
  all: try (by intros [=]).
  all: intros [= <-]; simpl; repeat split; congruence.
Qed.

(** X12: [provideDefaults] of the sqlx repository.  What the caller put
    in [DbConfig] is discarded and every setting is read from the
    environment: when the call returns, the host, the database, the
    user and the password are the values of [POSTGRES_HOST],
    [POSTGRES_DB], [POSTGRES_USER] and [POSTGRES_PASSWORD], or
    localhost and postgres for a variable that is not set, and the port
    is the number [strconv.Atoi] reads from [POSTGRES_PORT], or 5432
    when the variable is not set or reads as zero; so no setting is
    empty and the port is not zero.  The process is ended exactly when
    [POSTGRES_PORT] is set and [strconv.Atoi] gives a non-zero number
    with an error, with that error in the message.  With no variable
    set, the defaults are localhost, 5432 and postgres. *)
Theorem Sqlx_provideDefaults_fills (env : gmap string string)
    (given : option DBConfig) :
  provideDefaults Atoi env given = provideDefaults Atoi env None
  ∧ (∀ d, provideDefaults Atoi env given = Continues d →
          Host d ≠ "" ∧ Port d ≠ 0%Z ∧ Database d ≠ "" ∧ User d ≠ ""
          ∧ Password d ≠ "")
  ∧ (∀ d, provideDefaults Atoi env given = Continues d →
          Getenv env "POSTGRES_PORT" = ""
          ∨ (Atoi (Getenv env "POSTGRES_PORT")).1 = 0%Z →
          Port d = 5432%Z)
  ∧ (∀ msg, provideDefaults Atoi env given = Fatalf msg →
            Getenv env "POSTGRES_PORT" ≠ ""
            ∧ ∃ p err, Atoi (Getenv env "POSTGRES_PORT") = (p, Some err)
                       ∧ p ≠ 0%Z)
  ∧ provideDefaults Atoi ∅ given
    = Continues {| Host := "localhost"; Port := 5432; Database := "postgres";
                   User := "postgres"; Password := "postgres" |}
  ∧ (∀ d, provideDefaults Atoi env given = Continues d →
          Host d = (if decide (Getenv env "POSTGRES_HOST" = "") then "localhost"
                    else Getenv env "POSTGRES_HOST")
          ∧ Port d = (if decide (Getenv env "POSTGRES_PORT" = "") then 5432%Z
                      else if decide ((Atoi (Getenv env "POSTGRES_PORT")).1 = 0%Z)
                           then 5432%Z
                           else (Atoi (Getenv env "POSTGRES_PORT")).1)
          ∧ Database d = (if decide (Getenv env "POSTGRES_DB" = "") then "postgres"
                          else Getenv env "POSTGRES_DB")
          ∧ User d = (if decide (Getenv env "POSTGRES_USER" = "") then "postgres"
                      else Getenv env "POSTGRES_USER")
          ∧ Password d = (if decide (Getenv env "POSTGRES_PASSWORD" = "")
                          then "postgres"
                          else Getenv env "POSTGRES_PASSWORD"))
  ∧ (∀ p err, Getenv env "POSTGRES_PORT" ≠ "" →
              Atoi (Getenv env "POSTGRES_PORT") = (p, Some err) → p ≠ 0%Z →
              provideDefaults Atoi env given
              = Fatalf ("could not cast port: " +:+ err))
  ∧ (Getenv env "POSTGRES_PORT" = ""
     ∨ (Atoi (Getenv env "POSTGRES_PORT")).1 = 0%Z
     ∨ (Atoi (Getenv env "POSTGRES_PORT")).2 = None →
     ∃ d, provideDefaults Atoi env given = Continues d).
Proof.
  split; [done|]. split; [apply provideDefaults_filled|].
  split; [|split; [|split; [done|split; [|split]]]].
  - intros d. cases env.
    all: try (by intros [=]).
    all: intros [= <-] Hport; simpl; try done.
    all: destruct Hport; simpl in *; congruence.
  - intros msg. cases env.
    all: try (by intros [=]).
    all: intros _; split; [done|]; by eexists _, _.
  - intros d. cases env.
    all: try (by intros [=]).
    all: intros [= <-]; simpl; repeat case_decide; done.
  - intros p err. cases env.
    all: intros Hs Hp Hp0; simplify_eq; done.
  - cases env.
    all: intros Hport; try (by eexists).
    all: destruct Hport as [?|[?|?]]; simpl in *; congruence.
Qed.

(** X13: [NewRepo] of the sqlx repository, when [provideDefaults]
    returns.  The data source it dials always names a database.  A
    failed dial gives no repository and the envelope of kind
    [ErrCouldNotDialDB] around the error, with an empty namespace; a
    dial that gives a client gives a repository on it, for the table
    name of the configuration and with no factory. *)
Theorem Sqlx_NewRepo_outcomes (E : Type) (env : gmap string string)
    (config : Sqlx.Config) (given : option DBConfig) (d : DBConfig) :
  provideDefaults Atoi env given = Continues d →
  GetConnString d
  = "host=" +:+ Host d +:+ " port=" +:+ pretty (Port d) +:+ " user="
    +:+ User d +:+ " password=" +:+ Password d +:+ " dbname="
    +:+ Database d +:+ " sslmode=disable timezone=UCT"
  ∧ (∀ cl c, Connect "postgres" (GetConnString d) = (cl, Some c) →
       @NewRepo Atoi Connect E env config given
       = Continues (None, Some (Envelope {| Err := Some (New ErrCouldNotDialDB);
                                            BaseErr := Some (Driver c);
                                            Namespace := "" |})))
  ∧ (∀ cl, Connect "postgres" (GetConnString d) = (Some cl, None) →
       ∃ r : Sqlx.Repo E,
         NewRepo Atoi Connect env config given = Continues (Some r, None)
         ∧ Sqlx.client r = cl
         ∧ Sqlx.TableName (Sqlx.config r) = Sqlx.TableName config
         ∧ Sqlx.factoryFn r = None).
Proof.
  intros Hd.
  destruct (provideDefaults_filled env given d Hd) as (_ & _ & Hdb & _).
  split; [|split].
  - unfold GetConnString. by rewrite decide_False.
  - intros cl c Hc. unfold NewRepo. by rewrite Hd, Hc.
  - intros cl Hc. unfold NewRepo. rewrite Hd, Hc. by eexists.
Qed.

End sqlx_setup.

Lemma Sqlx_provideDefaults_fills_witness :
  SqlxSetup.provideDefaults Atoi_6543
    {[ "POSTGRES_HOST" := "db"; "POSTGRES_PORT" := "6543" ]}
    (Some {| SqlxSetup.Host := "given"; SqlxSetup.Port := 1;
             SqlxSetup.Database := "given"; SqlxSetup.User := "given";
             SqlxSetup.Password := "given" |})
  = Continues {| SqlxSetup.Host := "db"; SqlxSetup.Port := 6543;
                 SqlxSetup.Database := "postgres"; SqlxSetup.User := "postgres";
                 SqlxSetup.Password := "postgres" |}.
Proof.
  destruct (Sqlx_provideDefaults_fills Atoi_6543
              {[ "POSTGRES_HOST" := "db"; "POSTGRES_PORT" := "6543" ]}
              (Some {| SqlxSetup.Host := "given"; SqlxSetup.Port := 1;
                       SqlxSetup.Database := "given"; SqlxSetup.User := "given";
                       SqlxSetup.Password := "given" |}))
    as (_ & _ & _ & _ & _ & Hreads & _ & Hends).
  destruct Hends as [d Hd]; [right; right; vm_compute; reflexivity|].
  rewrite Hd. destruct (Hreads d Hd) as (Hh & Hp & Hdb & Hu & Hpw).
  destruct d as [h p db u pw]; simpl in *. by subst.
Defined.

Lemma Sqlx_NewRepo_outcomes_witness :
  @SqlxSetup.NewRepo (λ _, (0%Z, Some "invalid syntax"))
    (λ _ _, (None, Some "dial tcp: connection refused")) mocks.Model
    ∅ Example.config None
  = Continues (None, Some (Envelope {| Err := Some (New ErrCouldNotDialDB);
                                       BaseErr := Some (Driver "dial tcp: connection refused");
                                       Namespace := "" |})).
Proof.
  destruct (Sqlx_NewRepo_outcomes (λ _, (0%Z, Some "invalid syntax"))
              (λ _ _, (None, Some "dial tcp: connection refused")) mocks.Model
              ∅ Example.config None
              {| SqlxSetup.Host := "localhost"; SqlxSetup.Port := 5432;
                 SqlxSetup.Database := "postgres"; SqlxSetup.User := "postgres";
                 SqlxSetup.Password := "postgres" |})
    as (_ & H & _); [vm_compute; reflexivity|].
  apply (H None "dial tcp: connection refused"). vm_compute. reflexivity.
Defined.

(** ** The chain of repositories *)

Section chain.
Import Chain.
Context {R : Type}.
Variable Parent : N → ReadRepo R.

(** What [Repository] gives at a depth is read off the ancestor at that
    depth. *)
Lemma Repository_ancestor (fuel : nat) (repo : ReadRepo R) :
  Repository Parent fuel repo
  = match ancestor Parent fuel repo with
    | NilRepo => Some None
    | This r => Some r
    | Other _ => None
    end.
Proof.
  revert repo. induction fuel as [|fuel IH]; intros [|r|a]; simpl; auto.
Qed.

(** Once the walk has left the repositories of other types it stays. *)
Lemma ancestor_stays (n m : nat) (repo : ReadRepo R) :
  (n ≤ m)%nat →
  (∀ a, ancestor Parent n repo ≠ Other a) →
  ancestor Parent m repo = ancestor Parent n repo.
Proof.
  revert m repo. induction n as [|n IH]; intros m repo Hle Hn.
  - destruct repo as [|r|a]; [by destruct m|by destruct m|].
    by destruct (Hn a).
  - destruct m as [|m]; [lia|]. destruct repo as [|r|a]; simpl; try done.
    apply IH; [lia|done].
Qed.

(** X14: [Repository] walks up the chain of [Parent()] past the
    repositories of other types.  When the first repository that is not
    of another type is a [*Repo] of this package, [n] parents up,
    every run deep enough returns that pointer as it is; when the chain
    ends in the nil interface, it returns [nil]; it returns nothing
    else.  On a chain that never leaves the repositories of other
    types, one that is its own parent for instance, the recursion is
    not over at any depth.  A repository of this package has no
    parent: [Repository] of its parent is [nil]. *)
Theorem Repository_first (repo : ReadRepo R) :
  (∀ n r, ancestor Parent n repo = This r →
          ∀ fuel, (n ≤ fuel)%nat → Repository Parent fuel repo = Some r)
  ∧ (∀ n, ancestor Parent n repo = NilRepo →
          ∀ fuel, (n ≤ fuel)%nat → Repository Parent fuel repo = Some None)
  ∧ (∀ fuel res, Repository Parent fuel repo = Some res →
       ancestor Parent fuel repo = This res
       ∨ (ancestor Parent fuel repo = NilRepo ∧ res = None))
  ∧ ((∀ n, ∃ a, ancestor Parent n repo = Other a) →
     ∀ fuel, Repository Parent fuel repo = None)
  ∧ (∀ a, Parent a = Other a → ∀ fuel, Repository Parent fuel (Other a) = None)
  ∧ (∀ (E : Type) (r : Sqlx.Repo E) (p : GoPg.Repo E)
        (up : N → ReadRepo (Sqlx.Repo E)) (up' : N → ReadRepo (GoPg.Repo E))
        fuel,
       Repository up fuel (of_Parent (Sqlx.Parent r)) = Some None
       ∧ Repository up' fuel (of_Parent (GoPg.Parent p)) = Some None).
Proof.
  split; [|split; [|split; [|split; [|split]]]].
  - intros n r Hn fuel Hle. rewrite Repository_ancestor.
    rewrite (ancestor_stays n fuel repo Hle); by rewrite Hn.
  - intros n Hn fuel Hle. rewrite Repository_ancestor.
    rewrite (ancestor_stays n fuel repo Hle); by rewrite Hn.
  - intros fuel res. rewrite Repository_ancestor.
    destruct (ancestor Parent fuel repo) as [|r|a]; intros [= <-]; auto.
  - intros Hall fuel. rewrite Repository_ancestor.
    by destruct (Hall fuel) as [a ->].
  - intros a Ha fuel. induction fuel as [|fuel IH]; simpl; [done|].
    by rewrite Ha.
  - intros E r p up up' fuel. by destruct fuel.
Qed.

End chain.

Lemma Repository_first_witness :
  Chain.Repository
    (λ a, if decide (a = 0%N) then Chain.This (Some Example.r)
          else Chain.Other (N.pred a))
    5 (Chain.Other 2)
  = Some (Some Example.r)
  ∧ Chain.Repository (λ a, Chain.Other a) 5 (@Chain.Other (Sqlx.Repo mocks.Model) 2)
    = None.
Proof.
  split.
  - apply (Repository_first
             (λ a, if decide (a = 0%N) then Chain.This (Some Example.r)
                   else Chain.Other (N.pred a))
             (Chain.Other 2)) with (n := 3); [reflexivity|lia].
  - by apply (Repository_first (λ a, Chain.Other a) (Chain.Other 2)).
Defined.

(** ** The go-pg repository, continued *)

Section gopg_setup.
Import GoPg GoPgSetup.

Lemma GoPg_provideDefaults_fields (env : gmap string string) (c : Config) :
  provideDefaults env c
  = {| cfg_Addr := if decide (cfg_Addr c = "") then Getenv env "POSTGRES_ADDR"
                   else cfg_Addr c;
       cfg_Database := if decide (cfg_Database c = "") then Getenv env "POSTGRES_DB"
                       else cfg_Database c;
       cfg_User := if decide (cfg_User c = "") then Getenv env "POSTGRES_USER"
                   else cfg_User c;
       cfg_Password := if decide (cfg_Password c = "")
                       then Getenv env "POSTGRES_PASSWORD"
                       else cfg_Password c |}.
Proof.
  destruct c as [a d u p]. unfold provideDefaults. simpl.
  destruct (decide (a = "")); simpl; destruct (decide (d = "")); simpl;
    destruct (decide (u = "")); simpl; destruct (decide (p = "")); done.
Qed.

Lemma fill_again (x e : string) :
  (if decide ((if decide (x = "") then e else x) = "") then e
   else if decide (x = "") then e else x)
  = (if decide (x = "") then e else x).
Proof. repeat case_decide; congruence. Qed.

(** X16: [provideDefaults] of the go-pg repository keeps every setting
    the caller gave and reads each empty one from its variable,
    independently of the others; applying it again changes nothing. *)
Theorem GoPg_provideDefaults_keeps (env : gmap string string) (c : Config) :
  cfg_Addr (provideDefaults env c)
  = (if decide (cfg_Addr c = "") then Getenv env "POSTGRES_ADDR" else cfg_Addr c)
  ∧ cfg_Database (provideDefaults env c)
    = (if decide (cfg_Database c = "") then Getenv env "POSTGRES_DB"
       else cfg_Database c)
  ∧ cfg_User (provideDefaults env c)
    = (if decide (cfg_User c = "") then Getenv env "POSTGRES_USER"
       else cfg_User c)
  ∧ cfg_Password (provideDefaults env c)
    = (if decide (cfg_Password c = "") then Getenv env "POSTGRES_PASSWORD"
       else cfg_Password c)
  ∧ provideDefaults env (provideDefaults env c) = provideDefaults env c.
Proof.
  rewrite (GoPg_provideDefaults_fields env (provideDefaults env c)).
  rewrite (GoPg_provideDefaults_fields env c). simpl.
  repeat split; try done. by rewrite !fill_again.
Qed.

End gopg_setup.

Section gopg_any_client.
Import GoPg.
Context {St E : Type} `{!Entity E, !Client St E}.

Implicit Types (p : Repo E) (ctx : Context) (e : E) (v : World St (Call E)).

(** X17: before a factory is set, [Save] of an entity with a non-zero
    identifier and [Clear] of the go-pg repository call the nil factory:
    they panic, and no call has reached the client. *)
Theorem GoPg_nil_factory_panics p ctx e v :
  factoryFn p = None →
  EntityID e ≠ uuid_Nil →
  Save p ctx e v = (Panic Sqlx.nil_dereference, v)
  ∧ Clear p ctx v = (Panic Sqlx.nil_dereference, v).
Proof.
  intros Hf Hid. unfold Save, Clear. rewrite Hf. by rewrite decide_False.
Qed.

(** X20: [FindAll] of the go-pg repository with its factory set, on any
    client.  It makes one call, with the entity of the factory as the
    model; when the client ends without error it returns the values the
    callback was given, in the order they were given, and no error;
    when the client ends with an error it returns no value and the
    envelope of kind [ErrEntityNotFound] around the error. *)
Theorem GoPg_FindAll_outcomes p f ctx v :
  factoryFn p = Some f →
  FindAll p ctx v
  = (Return (match (ForEach (conn v) (f ())).2.2 with
             | None => (Given <$> (ForEach (conn v) (f ())).2.1, None)
             | Some c => ([], envelope ErrEntityNotFound (Some (Driver c))
                                (NamespaceFromContext ctx))
             end),
     {| conn := (ForEach (conn v) (f ())).1;
        calls := calls v ++ [ForEachCall (f ())] |}).
Proof.
  intros Hf. unfold FindAll. rewrite Hf. run.
  destruct (ForEach _ _) as [s [xs [c|]]]; simpl;
    by rewrite forEach_Given.
Qed.

(** X23: every error an operation of the go-pg repository returns is an
    envelope under the namespace of the context. *)
Theorem GoPg_errors_enveloped p ctx id expr e v err :
  fst (Find p ctx id v) = Return (None, Some err)
  ∨ (∃ l, fst (FindAll p ctx v) = Return (l, Some err))
  ∨ (∃ l, fst (FindWithFilter p ctx expr v) = Return (l, Some err))
  ∨ (∃ l, fst (FindWithFilterUsingIndex p ctx expr v) = Return (l, Some err))
  ∨ fst (Save p ctx e v) = Return (Some err)
  ∨ fst (Remove p ctx id v) = Return (Some err)
  ∨ fst (Clear p ctx v) = Return (Some err) →
  ∃ k base, Some err = envelope k base (NamespaceFromContext ctx).
Proof.
  intros [H|[[l H]|[[l H]|[[l H]|[H|[H|H]]]]]]; revert H.
  - unfold Find. destruct (factoryFn p); run.
    + destruct (Select _ _ _) as [s [d [c|]]]; simpl; intros [= <-] || intros [=];
        by eexists _, _.
    + intros [= <-]. by eexists _, _.
  - unfold FindAll. destruct (factoryFn p); run.
    + destruct (ForEach _ _) as [s [xs [c|]]]; simpl; rewrite forEach_Given;
        simpl; intros [= <- <-] || intros [=]; by eexists _, _.
    + intros [= <- <-]. by eexists _, _.
  - unfold FindWithFilter. destruct (factoryFn p); run; intros [= <- <-] || intros [=].
    by eexists _, _.
  - unfold FindWithFilterUsingIndex. destruct (factoryFn p); run;
      intros [= <- <-] || intros [=].
    by eexists _, _.
  - intros H. destruct (GoPg_Save_envelope p ctx e v err H) as [base Hb].
    by eexists _, _.
  - unfold Remove. destruct (factoryFn p); run.
    + destruct (Delete _ _ _) as [s [[[n]|] [c|]]]; simpl;
        repeat case_bool_decide; simpl; intros [= <-] || intros [=];
        by eexists _, _.
    + intros [= <-]. by eexists _, _.
  - unfold Clear. destruct (factoryFn p); run; [|by intros [=]].
    destruct (DeleteWherePK _ _) as [s [res [c|]]]; simpl;
      intros [= <-] || intros [=]; by eexists _, _.
Qed.

End gopg_any_client.

(** ** The go-pg repository as a map of entities *)

Lemma union_covered (new old : gmap string Value) :
  dom old ⊆ dom new → new ∪ old = new.
Proof.
  intros Hdom. apply map_eq. intros k. rewrite lookup_union.
  destruct (new !! k) as [x|] eqn:Hk; simpl.
  - by destruct (old !! k).
  - apply not_elem_of_dom in Hk.
    assert (old !! k = None) as -> by (apply not_elem_of_dom; set_solver).
    done.
Qed.

Section gopg_map.
Import GoPg.
Context {E : Type} `{!Entity E, !Reflect E, !ReflectLaws E}.
Hypothesis same_columns : ∀ e e' : E, dom (FieldMap e) = dom (FieldMap e').

Implicit Types (p : Repo E) (ctx : Context) (e : E) (ents : gmap N E)
  (v : World GoPgRef.Store (Call E)).

(** What [Save] does to a relation that holds entities. *)
Lemma GoPg_Save_sim p f ctx e v ents :
  factoryFn p = Some f →
  EntityID (f ()) ≠ EntityID e →
  EntityID e ≠ uuid_Nil →
  GoPgRef.skip_insert (conn v) = false →
  pg_holds (conn v) ents →
  ∃ v', Save p ctx e v = (Return None, v')
        ∧ pg_holds (conn v') (<[EntityID e := e]> ents)
        ∧ GoPgRef.skip_insert (conn v') = false
        ∧ calls v'
          = calls v ++ [SelectCall (f ()) (EntityID e);
                        match ents !! EntityID e with
                        | Some _ => UpdateCall e (EntityID e)
                        | None => InsertCall e
                        end].
Proof.
  intros Hf Hfid Hid Hskip [Hrows Hkeys]. unfold Save.
  rewrite decide_False, Hf by done. run. unfold GoPgRef.ref_Select.
  rewrite Hrows, lookup_fmap.
  destruct (ents !! EntityID e) as [e'|] eqn:He'; simpl.
  - rewrite scan_FieldMap. simpl.
    rewrite decide_True by (by apply (Hkeys _ _ He')).
    unfold GoPgRef.ref_Update. cbn [conn calls]. rewrite Hrows, lookup_fmap, He'. simpl.
    eexists. split; [done|]. simpl. split; [|split; [done|]].
    + split; simpl.
      * rewrite ?Hrows, fmap_insert. f_equal. apply union_covered.
        by rewrite (same_columns e' e).
      * by apply map_Forall_insert_2.
    + by rewrite <-app_assoc.
  - rewrite decide_False by done. unfold GoPgRef.ref_Insert.
    cbn [conn calls]. rewrite FieldMap_id, Hrows, lookup_fmap, He', Hskip. simpl.
    eexists. split; [done|]. simpl. split; [|split; [done|]].
    + split; simpl.
      * by rewrite ?Hrows, fmap_insert.
      * by apply map_Forall_insert_2.
    + by rewrite <-app_assoc.
Qed.

(** X18: on a relation without the skipping trigger that holds the rows
    of the entities [ents], each under its own identifier, and with a
    factory whose entity has another identifier than the one saved,
    [Save] of an entity with a non-zero identifier returns [nil] after
    two calls, a select and then an update or an insert, and the
    relation then holds [ents] with the entity under its identifier. *)
Theorem GoPg_Save_refines p f ctx e v ents :
  factoryFn p = Some f →
  EntityID (f ()) ≠ EntityID e →
  EntityID e ≠ uuid_Nil →
  GoPgRef.skip_insert (conn v) = false →
  pg_holds (conn v) ents →
  ∃ v', Save p ctx e v = (Return None, v')
        ∧ pg_holds (conn v') (<[EntityID e := e]> ents)
        ∧ GoPgRef.skip_insert (conn v') = false
        ∧ calls v'
          = calls v ++ [SelectCall (f ()) (EntityID e);
                        match ents !! EntityID e with
                        | Some _ => UpdateCall e (EntityID e)
                        | None => InsertCall e
                        end].
Proof. by apply GoPg_Save_sim. Qed.

(** X19: on a relation that holds the rows of [ents], [Clear] of the
    go-pg repository does not empty the relation.  It deletes by the
    primary key of the entity of the factory and returns [nil].  When
    that entity has the zero identifier, as a fresh entity has, the key
    is compared with NULL and the relation is left as it was, a row
    under the zero identifier included; otherwise the relation then
    holds [ents] without the identifier of that entity.  Every row
    under another identifier stays in place. *)
Theorem GoPg_Clear_refines p f ctx v ents :
  factoryFn p = Some f →
  pg_holds (conn v) ents →
  ∃ v', Clear p ctx v = (Return None, v')
        ∧ calls v' = calls v ++ [DeleteWherePKCall (f ())]
        ∧ (EntityID (f ()) = uuid_Nil → conn v' = conn v)
        ∧ (EntityID (f ()) ≠ uuid_Nil →
           pg_holds (conn v') (delete (EntityID (f ())) ents))
        ∧ ∀ k, k ≠ EntityID (f ()) →
               GoPgRef.rows (conn v') !! k = GoPgRef.rows (conn v) !! k.
Proof.
  intros Hf [Hrows Hkeys]. unfold Clear. rewrite Hf. run.
  unfold GoPgRef.ref_DeleteWherePK. rewrite FieldMap_id.
  destruct (decide (EntityID (f ()) = uuid_Nil)) as [Hzero|Hzero].
  { eexists. by repeat split. }
  unfold GoPgRef.ref_Delete. rewrite Hrows, lookup_fmap.
  destruct (ents !! EntityID (f ())) as [e0|] eqn:He0; simpl.
  - eexists. split; [done|]. simpl. split; [done|]. split; [done|].
    split; [intros _; split; simpl|].
    + by rewrite fmap_delete.
    + by apply map_Forall_delete.
    + intros k Hk. by rewrite lookup_delete_ne.
  - eexists. split; [done|]. simpl. split; [done|]. split; [done|].
    split; [intros _; split; simpl|by rewrite Hrows].
    + by rewrite (delete_id _ _ He0).
    + by apply map_Forall_delete.
Qed.

(** What [Find] reads from a relation that holds entities. *)
Lemma GoPg_Find_sim p f ctx id v ents :
  factoryFn p = Some f →
  pg_holds (conn v) ents →
  ∃ v', Find p ctx id v
        = (Return (match ents !! id with
                   | Some e => (Some (Made e), None)
                   | None => (None, envelope ErrEntityNotFound
                                      (Some (Driver GoPgRef.no_rows))
                                      (NamespaceFromContext ctx))
                   end), v')
        ∧ conn v' = conn v.
Proof.
  intros Hf [Hrows Hkeys]. unfold Find. rewrite Hf. run.
  unfold GoPgRef.ref_Select. rewrite Hrows, lookup_fmap.
  destruct (ents !! id) as [e|]; simpl.
  - rewrite scan_FieldMap. by eexists.
  - by eexists.
Qed.

(** X21: on a relation that holds the rows of [ents], [Find] of the
    go-pg repository with its factory set returns the entity stored
    under the identifier, in the entity the factory made, or no entity
    and the envelope of kind [ErrEntityNotFound] around the no-rows
    error; the relation is as before. *)
Theorem GoPg_Find_refines p f ctx id v ents :
  factoryFn p = Some f →
  pg_holds (conn v) ents →
  ∃ v', Find p ctx id v
        = (Return (match ents !! id with
                   | Some e => (Some (Made e), None)
                   | None => (None, envelope ErrEntityNotFound
                                      (Some (Driver GoPgRef.no_rows))
                                      (NamespaceFromContext ctx))
                   end), v')
        ∧ conn v' = conn v.
Proof. by apply GoPg_Find_sim. Qed.

(** X22: on a relation that holds the rows of [ents], [Remove] of the
    go-pg repository with its factory set returns [nil] when the
    identifier has an entity and the envelope of kind
    [ErrEntityNotFound] when it has none; afterwards the relation holds
    [ents] without that identifier. *)
Theorem GoPg_Remove_refines p f ctx id v ents :
  factoryFn p = Some f →
  pg_holds (conn v) ents →
  ∃ v', Remove p ctx id v
        = (Return (match ents !! id with
                   | Some _ => None
                   | None => envelope ErrEntityNotFound None
                               (NamespaceFromContext ctx)
                   end), v')
        ∧ pg_holds (conn v') (delete id ents).
Proof.
  intros Hf [Hrows Hkeys]. unfold Remove. rewrite Hf. run.
  unfold GoPgRef.ref_Delete. rewrite Hrows, lookup_fmap.
  destruct (ents !! id) as [e|] eqn:He; simpl.
  - eexists. split; [done|]. simpl. split; simpl.
    + by rewrite ?Hrows, fmap_delete.
    + by apply map_Forall_delete.
  - eexists. split; [done|]. split.
    + by rewrite (delete_id _ _ He).
    + by apply map_Forall_delete.
Qed.


(** X11: the round trip of the go-pg repository.  On a relation without
    the skipping trigger that holds the rows of [ents], with a factory
    whose entity has another identifier than the one saved, [Save] of
    an entity with a non-zero identifier followed by [Find] of its
    identifier returns [nil] and then the entity that was saved,
    whether the identifier was new or taken. *)
Theorem GoPg_Save_then_Find p f ctx ctx' e v ents :
  factoryFn p = Some f →
  EntityID (f ()) ≠ EntityID e →
  EntityID e ≠ uuid_Nil →
  GoPgRef.skip_insert (conn v) = false →
  pg_holds (conn v) ents →
  ∃ v' v'', Save p ctx e v = (Return None, v')
            ∧ Find p ctx' (EntityID e) v'
              = (Return (Some (Made e), None), v'').
Proof.
  intros Hf Hfid Hid Hskip Hents.
  destruct (GoPg_Save_sim p f ctx e v ents Hf Hfid Hid Hskip Hents)
    as (v' & HSave & Hents' & _).
  destruct (GoPg_Find_sim p f ctx' (EntityID e) v' _ Hf Hents')
    as (v'' & HFind & _).
  exists v', v''. split; [done|].
  by rewrite HFind, lookup_insert_eq.
Qed.

End gopg_map.

(** The relation of [Example.pg_world] holds what it was built from. *)
Lemma Example_pg_world_holds (ents : gmap N mocks.Model) (skip : bool) :
  map_Forall (λ k e, EntityID e = k) ents →
  pg_holds (conn (Example.pg_world (FieldMap <$> ents) skip)) ents.
Proof. intros Hkeys. by split. Qed.

Lemma GoPg_nil_factory_panics_witness :
  GoPg.Save Example.pg_unset Example.ctx Example.entity1
    (Example.pg_world ∅ false)
  = (Panic Sqlx.nil_dereference, Example.pg_world ∅ false)
  ∧ GoPg.Clear Example.pg_unset Example.ctx (Example.pg_world ∅ false)
    = (Panic Sqlx.nil_dereference, Example.pg_world ∅ false).
Proof.
  apply (GoPg_nil_factory_panics Example.pg_unset Example.ctx Example.entity1
           (Example.pg_world ∅ false)).
  - reflexivity.
  - vm_compute. discriminate.
Defined.

Lemma GoPg_FindAll_outcomes_witness :
  fst (GoPg.FindAll Example.pg Example.ctx
         (Example.pg_world (FieldMap <$> {[ 1%N := Example.entity1 ]}) false))
  = Return ([GoPg.Given {| GoPg.X_Model := Example.entity1 |}], None).
Proof.
  rewrite (GoPg_FindAll_outcomes Example.pg Example.factory Example.ctx
             (Example.pg_world (FieldMap <$> {[ 1%N := Example.entity1 ]}) false)
             eq_refl).
  vm_compute. reflexivity.
Defined.

Lemma GoPg_errors_enveloped_witness :
  ∃ k base, Some (Envelope {| Err := Some (New ErrEntityNotFound);
                              BaseErr := None;
                              Namespace := "ns" |})
            = envelope k base "ns".
Proof.
  apply (GoPg_errors_enveloped Example.pg Example.customNamespaceCtx
           1%N "" Example.entity1 (Example.pg_world ∅ false)).
  do 5 right. left. vm_compute. reflexivity.
Defined.

Lemma GoPg_Save_refines_witness :
  ∃ v', GoPg.Save Example.pg Example.ctx Example.entity1Alt
          (Example.pg_world (FieldMap <$> {[ 1%N := Example.entity1 ]}) false)
        = (Return None, v')
        ∧ pg_holds (conn v')
            (<[1%N := Example.entity1Alt]> {[ 1%N := Example.entity1 ]}).
Proof.
  destruct (GoPg_Save_refines Model_same_columns Example.pg Example.factory
              Example.ctx Example.entity1Alt
              (Example.pg_world (FieldMap <$> {[ 1%N := Example.entity1 ]}) false)
              {[ 1%N := Example.entity1 ]})
    as (v' & H1 & H2 & _).
  - reflexivity.
  - vm_compute. discriminate.
  - vm_compute. discriminate.
  - reflexivity.
  - apply Example_pg_world_holds. by apply map_Forall_singleton.
  - exists v'. exact (conj H1 H2).
Defined.

Lemma GoPg_Clear_refines_witness :
  ∃ v', GoPg.Clear Example.pg Example.ctx
          (Example.pg_world
             (FieldMap <$> {[ 0%N := Example.entityMissingID;
                              1%N := Example.entity1 ]}) false)
        = (Return None, v')
        ∧ GoPgRef.rows (conn v')
          = FieldMap <$> {[ 0%N := Example.entityMissingID;
                            1%N := Example.entity1 ]}.
Proof.
  destruct (GoPg_Clear_refines Example.pg Example.factory Example.ctx
              (Example.pg_world
                 (FieldMap <$> {[ 0%N := Example.entityMissingID;
                                  1%N := Example.entity1 ]}) false)
              {[ 0%N := Example.entityMissingID; 1%N := Example.entity1 ]})
    as (v' & H1 & _ & H2 & _).
  - reflexivity.
  - apply Example_pg_world_holds.
    apply map_Forall_insert_2; [done|]. by apply map_Forall_singleton.
  - exists v'. split; [exact H1|]. by rewrite (H2 eq_refl).
Defined.

Lemma GoPg_Find_refines_witness :
  ∃ v', GoPg.Find Example.pg Example.ctx 1
          (Example.pg_world (FieldMap <$> {[ 1%N := Example.entity1 ]}) false)
        = (Return (Some (GoPg.Made Example.entity1), None), v').
Proof.
  destruct (GoPg_Find_refines Example.pg Example.factory Example.ctx 1
              (Example.pg_world (FieldMap <$> {[ 1%N := Example.entity1 ]}) false)
              {[ 1%N := Example.entity1 ]})
    as (v' & H1 & _).
  - reflexivity.
  - apply Example_pg_world_holds. by apply map_Forall_singleton.
  - exists v'. exact H1.
Defined.

Lemma GoPg_Remove_refines_witness :
  ∃ v', GoPg.Remove Example.pg Example.ctx 1
          (Example.pg_world (FieldMap <$> {[ 1%N := Example.entity1 ]}) false)
        = (Return None, v')
        ∧ pg_holds (conn v') (delete 1%N {[ 1%N := Example.entity1 ]}).
Proof.
  destruct (GoPg_Remove_refines Example.pg Example.factory Example.ctx 1
              (Example.pg_world (FieldMap <$> {[ 1%N := Example.entity1 ]}) false)
              {[ 1%N := Example.entity1 ]})
    as (v' & H1 & H2).
  - reflexivity.
  - apply Example_pg_world_holds. by apply map_Forall_singleton.
  - exists v'. exact (conj H1 H2).
Defined.

Lemma GoPg_Save_then_Find_witness :
  ∃ v' v'', GoPg.Save Example.pg Example.ctx Example.entity2
              (Example.pg_world (FieldMap <$> {[ 1%N := Example.entity1 ]}) false)
            = (Return None, v')
            ∧ GoPg.Find Example.pg Example.customNamespaceCtx
                (EntityID Example.entity2) v'
              = (Return (Some (GoPg.Made Example.entity2), None), v'').
Proof.
  apply (GoPg_Save_then_Find Model_same_columns Example.pg Example.factory
           Example.ctx Example.customNamespaceCtx Example.entity2
           (Example.pg_world (FieldMap <$> {[ 1%N := Example.entity1 ]}) false)
           {[ 1%N := Example.entity1 ]}).
  - reflexivity.
  - vm_compute. discriminate.
  - vm_compute. discriminate.
  - reflexivity.
  - apply Example_pg_world_holds. by apply map_Forall_singleton.
Defined.
